(** * RechiGPT chat page: the client-side session state machine

    A shallow embedding of [ChatPage] (the Next.js chat page of the
    repository) and of its two asynchronous operations, [loadChatHistory]
    and [sendMessage], together with the properties the specification
    states about them.

    Conventions of the embedding:
    - a JavaScript string is the list of its UTF-16 code units;
    - the React state of the component is a record, its setters are
      applied in program order (the component only uses values and
      functional updaters, and reads state through the closure of a
      render, which is an explicit argument here);
    - [localStorage] is a finite map, the router, the console and the
      network are recorded in a trace of effects, in program order;
    - an [async] function is cut at its [await fetch(...)]: the part that
      runs synchronously in the caller's turn, and the part that resumes
      once the promise settles, given the way it settled. *)

From Stdlib Require Import ZArith NArith List Bool Ascii String DecimalString Lia.
From Stdlib Require Import DecimalPos DecimalZ.
From stdpp Require Import base gmap strings list.
Import ListNotations.

Local Open Scope Z_scope.

(** ** JavaScript strings *)

Module Js.

(** A string value: its UTF-16 code units. *)
Definition jstring : Type := list N.

(** A literal of the source, all of whose characters are ASCII. *)
Definition lit (s : string) : jstring :=
  map N_of_ascii (list_ascii_of_string s).

(** [WhiteSpace] and [LineTerminator] code units of ECMAScript, the ones
    [String.prototype.trim] strips. *)
Definition isWhiteSpace (c : N) : bool :=
  ((c =? 0x9) || (c =? 0xA) || (c =? 0xB) || (c =? 0xC) || (c =? 0xD)
   || (c =? 0x20) || (c =? 0xA0) || (c =? 0x1680)
   || ((0x2000 <=? c) && (c <=? 0x200A))
   || (c =? 0x2028) || (c =? 0x2029) || (c =? 0x202F) || (c =? 0x205F)
   || (c =? 0x3000) || (c =? 0xFEFF))%N.

Fixpoint trimStart (s : jstring) : jstring :=
  match s with
  | [] => []
  | c :: r => if isWhiteSpace c then trimStart r else s
  end.

Definition trimEnd (s : jstring) : jstring := rev (trimStart (rev s)).

(** [s.trim()] *)
Definition trim (s : jstring) : jstring := trimEnd (trimStart s).

(** [!s] on a string: only the empty string is falsy. *)
Definition falsy (s : jstring) : bool :=
  match s with [] => true | _ :: _ => false end.

(** The text a template literal gives an integer number: [`${n}`]. *)
Definition of_number (n : Z) : jstring :=
  lit (NilZero.string_of_int (Z.to_int n)).

(** A [Date] object, by the constructor call that made it: [new Date()]
    at a reading of the local clock (milliseconds), or
    [new Date(text)] from a time string. *)
Inductive Date : Type :=
| Date_local (ms : Z)
| Date_parse (text : jstring).

(** What a [throw] or a rejected promise carries. *)
Inductive Exn : Type :=
| TypeError (message : jstring)
| SyntaxError (message : jstring)
| Error (message : jstring).

End Js.

Import Js.

(** ** Data model *)

(** [interface Message] *)
Record Message : Type := mkMessage {
  id : jstring;
  content : jstring;
  isUser : bool;
  timestamp : Date
}.

(** One element of the array [GET /chat/history] returns. The backend's
    turn id is an integer key. *)
Record Turn : Type := mkTurn {
  turn_id : Z;
  turn_message : jstring;
  turn_response : jstring;
  turn_timestamp : jstring
}.

(** The body of a successful [POST /chat]. *)
Record Reply : Type := mkReply {
  reply_response : jstring;
  reply_timestamp : jstring
}.

(** The [useState] cells of [ChatPage]. *)
Record Page : Type := mkPage {
  messages : list Message;
  inputMessage : jstring;
  loading : bool;
  isAuthenticated : bool
}.

(** A call of [fetch]: the url, the method, the [Authorization] header and,
    for a POST, the [message] field of the object given to
    [JSON.stringify]. *)
Record Request : Type := mkRequest {
  url : jstring;
  method : jstring;
  authorization : jstring;
  body_message : option jstring
}.

(** How a [fetch] settles: the promise rejects, or it resolves to a
    response with a status, whose body read as JSON of the expected shape
    either throws ([inl]) or yields a value ([inr]). The body is only
    looked at where the code calls [response.json()]. *)
Inductive Outcome (A : Type) : Type :=
| Rejected (e : Exn)
| Responded (status : Z) (json : Exn + A).
Arguments Rejected {A} e.
Arguments Responded {A} status json.

(** [response.ok] *)
Definition ok (status : Z) : bool := (200 <=? status) && (status <=? 299).

(** What the handlers do to the world around the component, in program
    order. *)
Inductive Effect : Type :=
| E_setMessages (next : list Message)
| E_setInputMessage (next : jstring)
| E_setLoading (next : bool)
| E_setIsAuthenticated (next : bool)
| E_fetch (r : Request)
| E_removeItem (key : string)
| E_push (path : jstring)
| E_console_error (label : jstring) (e : Exn).

(** The environment: the browser's [localStorage], the system clock (the
    value its n-th reading returns, and how many readings were made) and
    the effects performed so far. *)
Record World : Type := mkWorld {
  localStorage : gmap string jstring;
  clock : nat -> Z;
  reads : nat;
  trace : list Effect
}.

Record Sys : Type := mkSys {
  page : Page;
  world : World
}.

(** ** The monad of handlers: state and exceptions *)

Inductive Completion (A : Type) : Type :=
| Normal (a : A)
| Abrupt (e : Exn).
Arguments Normal {A} a.
Arguments Abrupt {A} e.

Definition M (A : Type) : Type := Sys -> Completion A * Sys.

Definition ret {A} (a : A) : M A := fun s => (Normal a, s).

Definition bind {A B} (m : M A) (k : A -> M B) : M B :=
  fun s =>
    match m s with
    | (Normal a, s') => k a s'
    | (Abrupt e, s') => (Abrupt e, s')
    end.

Definition throw {A} (e : Exn) : M A := fun s => (Abrupt e, s).

Declare Scope handler_scope.
Delimit Scope handler_scope with handler.
Notation "'let*' x ':=' m 'in' k" := (bind m (fun x => k))
  (at level 10, x name, m at level 100, k at level 200) : handler_scope.
Notation "m ;; k" := (bind m (fun _ => k))
  (at level 100, k at level 200, right associativity) : handler_scope.
Local Open Scope handler_scope.

(** [try { body } catch (error) { handler }] *)
Definition try_catch {A} (body : M A) (handler : Exn -> M A) : M A :=
  fun s =>
    match body s with
    | (Normal a, s') => (Normal a, s')
    | (Abrupt e, s') => handler e s'
    end.

(** [try { body } catch (error) { handler } finally { final }] *)
Definition try_catch_finally {A} (body : M A) (handler : Exn -> M A)
    (final : M unit) : M A :=
  fun s =>
    match try_catch body handler s with
    | (r, s') =>
        match final s' with
        | (Normal _, s'') => (r, s'')
        | (Abrupt e, s'') => (Abrupt e, s'')
        end
    end.

(** *** Primitive operations *)

Definition set_page (f : Page -> Page) (s : Sys) : Sys :=
  mkSys (f (page s)) (world s).

Definition set_world (f : World -> World) (s : Sys) : Sys :=
  mkSys (page s) (f (world s)).

Definition log (e : Effect) (w : World) : World :=
  mkWorld (localStorage w) (clock w) (reads w) (trace w ++ [e]).

Definition emit (e : Effect) : M unit :=
  fun s => (Normal tt, set_world (log e) s).

(** [Date.now()]: one reading of the clock. *)
Definition Date_now : M Z :=
  fun s =>
    let w := world s in
    (Normal (clock w (reads w)),
     set_world (fun w => mkWorld (localStorage w) (clock w) (S (reads w)) (trace w)) s).

(** [new Date()] *)
Definition new_Date : M Date :=
  let* t := Date_now in ret (Date_local t).

(** [setMessages(updater)]; [setMessages(value)] is the constant updater. *)
Definition setMessages (updater : list Message -> list Message) : M unit :=
  fun s =>
    let next := updater (messages (page s)) in
    emit (E_setMessages next)
      (set_page (fun p => mkPage next (inputMessage p) (loading p) (isAuthenticated p)) s).

Definition setInputMessage (v : jstring) : M unit :=
  fun s =>
    emit (E_setInputMessage v)
      (set_page (fun p => mkPage (messages p) v (loading p) (isAuthenticated p)) s).

Definition setLoading (v : bool) : M unit :=
  fun s =>
    emit (E_setLoading v)
      (set_page (fun p => mkPage (messages p) (inputMessage p) v (isAuthenticated p)) s).

Definition setIsAuthenticated (v : bool) : M unit :=
  fun s =>
    emit (E_setIsAuthenticated v)
      (set_page (fun p => mkPage (messages p) (inputMessage p) (loading p) v) s).

(** [localStorage.getItem(key)]: the value or [null]. *)
Definition localStorage_getItem (key : string) : M (option jstring) :=
  fun s => (Normal (localStorage (world s) !! key), s).

(** [localStorage.removeItem(key)] *)
Definition localStorage_removeItem (key : string) : M unit :=
  fun s =>
    emit (E_removeItem key)
      (set_world
         (fun w => mkWorld (delete key (localStorage w)) (clock w) (reads w) (trace w)) s).

(** [router.push(path)] *)
Definition router_push (path : jstring) : M unit := emit (E_push path).

(** [console.error(label, error)] *)
Definition console_error (label : jstring) (e : Exn) : M unit :=
  emit (E_console_error label e).

(** [fetch(...)]: the request leaves; the promise is awaited later. *)
Definition fetch (r : Request) : M Request :=
  emit (E_fetch r) ;; ret r.

(** [`Bearer ${token}`], the token being a string or [null]. *)
Definition bearer (token : option jstring) : jstring :=
  lit "Bearer " ++ match token with Some t => t | None => lit "null" end.

(** [await promise], resumed with the way the promise settled. *)
Definition await {A} (o : Outcome A) : M (Z * (Exn + A)) :=
  match o with
  | Rejected e => throw e
  | Responded status json => ret (status, json)
  end.

(** [await response.json()] *)
Definition response_json {A} (json : Exn + A) : M A :=
  match json with
  | inl e => throw e
  | inr a => ret a
  end.

(** ** The handlers of [ChatPage] *)

Definition history_url : jstring := lit "http://localhost:8000/chat/history".
Definition chat_url : jstring := lit "http://localhost:8000/chat".
Definition login_path : jstring := lit "/login".
Definition apology : jstring :=
  lit "Sorry, I encountered an error. Please try again.".

(** *** [loadChatHistory] *)

(** The body of the [forEach] callback: two [push]es. *)
Definition push_turn (formattedMessages : list Message) (item : Turn) : list Message :=
  (formattedMessages
     ++ [mkMessage (lit "user-" ++ of_number (turn_id item)) (turn_message item)
           true (Date_parse (turn_timestamp item))])
    ++ [mkMessage (lit "bot-" ++ of_number (turn_id item)) (turn_response item)
          false (Date_parse (turn_timestamp item))].

(** [formattedMessages] after [history.forEach(...)]. *)
Definition formatHistory (history : list Turn) : list Message :=
  fold_left push_turn history [].

(** Up to the [await fetch(...)]. *)
Definition loadChatHistory_call : M Request :=
  let* token := localStorage_getItem "token" in
  fetch (mkRequest history_url (lit "GET") (bearer token) None).

(** From the [await] on. *)
Definition loadChatHistory_resume (o : Outcome (list Turn)) : M unit :=
  try_catch
    (let* response := await o in
     if ok (fst response) then
       let* history := response_json (snd response) in
       setMessages (fun _ => formatHistory history)
     else ret tt)
    (fun error => console_error (lit "Failed to load chat history:") error).

(** The whole call, nothing else running while the request is out. *)
Definition loadChatHistory (o : Outcome (list Turn)) : M unit :=
  loadChatHistory_call ;; loadChatHistory_resume o.

(** *** [sendMessage] *)

(** Up to the [await fetch(...)]; [snap] is the render the closure was
    made in, so [inputMessage snap] and [loading snap] are the values the
    handler sees, also after it has called the setters. The last two
    steps are the head of the [try] block: neither throws ([fetch]
    reports a failure by rejecting its promise).
    [None]: the guard returned, [Some r]: the request [r] is out. *)
Definition sendMessage_call (snap : Page) : M (option Request) :=
  if falsy (trim (inputMessage snap)) || loading snap then ret None
  else
    let* now := Date_now in
    let* date := new_Date in
    let userMessage :=
      mkMessage (lit "user-" ++ of_number now) (inputMessage snap) true date in
    setMessages (fun prev => prev ++ [userMessage]) ;;
    setInputMessage [] ;;
    setLoading true ;;
    let* token := localStorage_getItem "token" in
    let* promise :=
      fetch (mkRequest chat_url (lit "POST") (bearer token) (Some (inputMessage snap))) in
    ret (Some promise).

(** From the [await] on. *)
Definition sendMessage_resume (o : Outcome Reply) : M unit :=
  try_catch_finally
    (let* response := await o in
     if ok (fst response) then
       let* data := response_json (snd response) in
       let* now := Date_now in
       let botMessage :=
         mkMessage (lit "bot-" ++ of_number now) (reply_response data) false
           (Date_parse (reply_timestamp data)) in
       setMessages (fun prev => prev ++ [botMessage])
     else if fst response =? 401 then
       localStorage_removeItem "token" ;;
       router_push login_path
     else throw (Error (lit "Failed to send message")))
    (fun error =>
       console_error (lit "Error sending message:") error ;;
       let* now := Date_now in
       let* date := new_Date in
       let errorMessage := mkMessage (lit "error-" ++ of_number now) apology false date in
       setMessages (fun prev => prev ++ [errorMessage]))
    (setLoading false).

(** The whole call, nothing else running while the request is out. *)
Definition sendMessage (snap : Page) (o : Outcome Reply) : M unit :=
  let* promise := sendMessage_call snap in
  match promise with
  | None => ret tt
  | Some _ => sendMessage_resume o
  end.

(** *** The other handlers *)

Definition handleLogout : M unit :=
  localStorage_removeItem "token" ;;
  router_push login_path.

(** [handleKeyPress]: the call of [sendMessage] is not awaited. *)
Definition handleKeyPress (snap : Page) (key : jstring) (shiftKey : bool) : M unit :=
  if bool_decide (key = lit "Enter") && negb shiftKey
  then sendMessage_call snap ;; ret tt
  else ret tt.

(** The first [useEffect]: the token check on mount. *)
Definition mount : M unit :=
  let* token := localStorage_getItem "token" in
  match token with
  | Some (_ :: _) =>
      setIsAuthenticated true ;;
      loadChatHistory_call ;; ret tt
  | _ => router_push (lit "/login")
  end.

(** *** The input area of the rendered page *)

Record View : Type := mkView {
  welcome : bool;          (* messages.length === 0 *)
  thinking : bool;         (* the "Thinking..." row *)
  input_value : jstring;   (* <Input value=...> *)
  input_disabled : bool;   (* <Input disabled=...> *)
  send_disabled : bool     (* <Button disabled=...> *)
}.

(** [None] is the spinner shown while [isAuthenticated] is false. *)
Definition render (p : Page) : option View :=
  if negb (isAuthenticated p) then None
  else Some (mkView
               (Nat.eqb (length (messages p)) 0)
               (loading p)
               (inputMessage p)
               (loading p)
               (loading p || falsy (trim (inputMessage p)))).

(** What the user does to the input area. *)
Inductive Action : Type :=
| Edit (value : jstring)
| KeyPress (key : jstring) (shiftKey : bool)
| ClickSend.

(** The browser delivers an event to a handler of the current render,
    and none for a control that is disabled or not on the page. [Input]
    and [Button] are the project's wrappers of the native elements, to
    which they hand [disabled] on; a disabled native control takes no
    input and fires no event. *)
Definition user (a : Action) : M unit :=
  fun s =>
    match render (page s) with
    | None => (Normal tt, s)
    | Some v =>
        match a with
        | Edit value =>
            if input_disabled v then (Normal tt, s) else setInputMessage value s
        | KeyPress key shiftKey =>
            if input_disabled v then (Normal tt, s)
            else handleKeyPress (page s) key shiftKey s
        | ClickSend =>
            if send_disabled v then (Normal tt, s)
            else (sendMessage_call (page s) ;; ret tt) s
        end
    end.

(** ** The values the handlers build, named for the statements below *)

(** [userMessage] of a call of [sendMessage] made in world [w] from the
    render [snap]: the id takes the first reading of the clock, the
    timestamp the second. *)
Definition userMessage_of (snap : Page) (w : World) : Message :=
  mkMessage (lit "user-" ++ of_number (clock w (reads w)))
    (inputMessage snap) true (Date_local (clock w (S (reads w)))).

(** The request that call issues. *)
Definition request_of (snap : Page) (w : World) : Request :=
  mkRequest chat_url (lit "POST") (bearer (localStorage w !! "token"))
    (Some (inputMessage snap)).

(** [botMessage] for the reply [data], built in world [w]. *)
Definition botMessage_of (data : Reply) (w : World) : Message :=
  mkMessage (lit "bot-" ++ of_number (clock w (reads w)))
    (reply_response data) false (Date_parse (reply_timestamp data)).

(** [errorMessage], built in world [w]. *)
Definition errorMessage_of (w : World) : Message :=
  mkMessage (lit "error-" ++ of_number (clock w (reads w)))
    apology false (Date_local (clock w (S (reads w)))).

(** The two entries of one turn of the history. *)
Definition user_entry (item : Turn) : Message :=
  mkMessage (lit "user-" ++ of_number (turn_id item)) (turn_message item)
    true (Date_parse (turn_timestamp item)).

Definition bot_entry (item : Turn) : Message :=
  mkMessage (lit "bot-" ++ of_number (turn_id item)) (turn_response item)
    false (Date_parse (turn_timestamp item)).

(** A status of the 2xx class. *)
Definition is_2xx (status : Z) : Prop := 200 <= status <= 299.

(** The state a settled call of [sendMessage] leaves, by the branch taken,
    from the state [s] it resumes in. *)
Definition resolved (data : Reply) (s : Sys) : Sys :=
  let w := world s in
  let next := messages (page s) ++ [botMessage_of data w] in
  mkSys
    (mkPage next (inputMessage (page s)) false (isAuthenticated (page s)))
    (mkWorld (localStorage w) (clock w) (S (reads w))
       (trace w ++ [E_setMessages next; E_setLoading false])).

Definition failed (e : Exn) (s : Sys) : Sys :=
  let w := world s in
  let next := messages (page s) ++ [errorMessage_of w] in
  mkSys
    (mkPage next (inputMessage (page s)) false (isAuthenticated (page s)))
    (mkWorld (localStorage w) (clock w) (S (S (reads w)))
       (trace w ++ [E_console_error (lit "Error sending message:") e;
                    E_setMessages next; E_setLoading false])).

Definition unauthorized (s : Sys) : Sys :=
  let w := world s in
  mkSys
    (mkPage (messages (page s)) (inputMessage (page s)) false
       (isAuthenticated (page s)))
    (mkWorld (delete "token" (localStorage w)) (clock w) (reads w)
       (trace w ++ [E_removeItem "token"; E_push login_path; E_setLoading false])).

(** The state right after an accepted call of [sendMessage], at the
    [await]. *)
Definition optimistic (snap : Page) (s : Sys) : Sys :=
  let w := world s in
  let next := messages (page s) ++ [userMessage_of snap w] in
  mkSys
    (mkPage next [] true (isAuthenticated (page s)))
    (mkWorld (localStorage w) (clock w) (S (S (reads w)))
       (trace w ++ [E_setMessages next; E_setInputMessage []; E_setLoading true;
                    E_fetch (request_of snap w)])).

(** ** Concrete runs used below *)

Module Scenario.

Definition clock0 (n : nat) : Z := 1700000000000 + Z.of_nat n.

(** A session with a token, nothing done yet. *)
Definition world0 : World := mkWorld {["token" := lit "abc"]} clock0 0 [].

Definition page_of (draft : jstring) (busy : bool) : Page :=
  mkPage [] draft busy true.

Definition sys_of (draft : jstring) (busy : bool) : Sys :=
  mkSys (page_of draft busy) world0.

(** Scenario A of the specification: the draft "hello", nothing in flight. *)
Definition hello_page : Page := page_of (lit "hello") false.
Definition hello : Sys := sys_of (lit "hello") false.

(** A page with a send in flight. *)
Definition busy : Sys := mkSys (mkPage [] [] true true) world0.

Definition hi_there : Reply :=
  mkReply (lit "hi there") (lit "2024-01-01T00:00:00Z").

Definition turn1 : Turn := mkTurn 1 (lit "a") (lit "b") (lit "T").

End Scenario.

(** ** The landing page and the turns of the event loop *)

(** The [useEffect] of [Home]: a token that is neither [null] nor empty
    sends the visitor to the chat, anything else to the login page. *)
Definition Home_effect : M unit :=
  let* token := localStorage_getItem "token" in
  match token with
  | Some (_ :: _) => router_push (lit "/chat")
  | _ => router_push (lit "/login")
  end.

(** Several things the user does one after the other, each delivered to
    the render the previous one left. *)
Fixpoint users (actions : list Action) (s : Sys) : Sys :=
  match actions with
  | [] => s
  | a :: rest => users rest (snd (user a s))
  end.

(** What one turn of the event loop can run on the chat page: the mount
    effect, the resumption of either request, something the user does to
    the input area, the logout button. *)
Inductive Task : Type :=
| T_mount
| T_history (o : Outcome (list Turn))
| T_user (a : Action)
| T_settle (o : Outcome Reply)
| T_logout.

Definition perform (t : Task) : M unit :=
  match t with
  | T_mount => mount
  | T_history o => loadChatHistory_resume o
  | T_user a => user a
  | T_settle o => sendMessage_resume o
  | T_logout => handleLogout
  end.

Fixpoint perform_all (tasks : list Task) (s : Sys) : Sys :=
  match tasks with
  | [] => s
  | t :: rest => perform_all rest (snd (perform t s))
  end.

(** A task that can put a new array in place of the timeline. *)
Definition is_history (t : Task) : bool :=
  match t with T_history _ => true | _ => false end.

(** The routes pushed and the requests sent, read off a trace. *)
Definition pushes (tr : list Effect) : list jstring :=
  flat_map (fun e => match e with E_push path => [path] | _ => [] end) tr.

Definition requests (tr : list Effect) : list Request :=
  flat_map (fun e => match e with E_fetch r => [r] | _ => [] end) tr.

(** The test [if (token)] of both pages on the stored token. *)
Definition logged_in (w : World) : bool :=
  match localStorage w !! "token" with
  | Some (_ :: _) => true
  | _ => false
  end.

(** What a later state keeps of an earlier one, whatever ran in between:
    the same clock, a storage that is the same or has lost [token], a
    trace that has only grown, and the authenticated mark once set. *)
Definition follows (s s' : Sys) : Prop :=
  clock (world s') = clock (world s)
  /\ (localStorage (world s') = localStorage (world s)
      \/ localStorage (world s') = delete "token" (localStorage (world s)))
  /\ (exists suffix, trace (world s') = trace (world s) ++ suffix)
  /\ (isAuthenticated (page s) = true -> isAuthenticated (page s') = true).

Module Visit.

(** A browser with nothing stored, before the page has done anything. *)
Definition fresh_page : Page := mkPage [] [] false false.

Definition anonymous : Sys :=
  mkSys fresh_page (mkWorld ∅ Scenario.clock0 0 []).

(** The same with a token stored. *)
Definition returning : Sys := mkSys fresh_page Scenario.world0.

End Visit.

(** ** Running a handler *)

(** Unfolds the monad and the primitive operations, and reduces the record
    projections; literals, lists and maps stay folded. *)
Ltac run :=
  unfold try_catch_finally, try_catch, new_Date, Date_now, setMessages,
    setInputMessage, setLoading, setIsAuthenticated, localStorage_getItem,
    localStorage_removeItem, router_push, console_error, fetch, await,
    response_json, emit, throw, bind, ret, set_page, set_world, log;
  cbn [page world messages inputMessage loading isAuthenticated
       localStorage clock reads trace fst snd].

Ltac flat := rewrite <- ?app_assoc; cbn [app]; try reflexivity.

(** ** Checks of the string primitives *)

Example trim_hello : trim (lit "  hello ") = lit "hello".
Proof. reflexivity. Qed.

Example of_number_1 : of_number 1 = lit "1" /\ of_number 0 = lit "0"
  /\ of_number 1700000000000 = lit "1700000000000".
Proof. repeat split; reflexivity. Qed.

(** ** Strings: what [trim] leaves *)

Section Trim.

Lemma trimStart_nil (s : jstring) :
  trimStart s = [] <-> forallb isWhiteSpace s = true.
Proof.
  induction s as [|c r IH]; simpl; [tauto|].
  destruct (isWhiteSpace c); simpl; [exact IH|].
  split; discriminate.
Qed.

Lemma trimStart_head (s : jstring) (c : N) (r : jstring) :
  trimStart s = c :: r -> isWhiteSpace c = false.
Proof.
  induction s as [|d t IH]; simpl; [discriminate|].
  destruct (isWhiteSpace d) eqn:Hd; [exact IH|].
  intros [= -> _]. exact Hd.
Qed.

Lemma forallb_rev {A} (f : A -> bool) (l : list A) :
  forallb f (rev l) = forallb f l.
Proof.
  induction l as [|a l IH]; simpl; [reflexivity|].
  rewrite forallb_app, IH. simpl. rewrite andb_true_r. apply andb_comm.
Qed.

(** [s.trim()] is empty exactly when every code unit of [s] is white
    space (the empty string included). *)
Lemma trim_nil (s : jstring) :
  trim s = [] <-> forallb isWhiteSpace s = true.
Proof.
  unfold trim, trimEnd. split.
  - intros H.
    assert (Hr : trimStart (rev (trimStart s)) = []).
    { rewrite <- (rev_involutive (trimStart _)), H. reflexivity. }
    apply trimStart_nil in Hr. rewrite forallb_rev in Hr.
    destruct (trimStart s) as [|c r] eqn:E; [now apply trimStart_nil|].
    apply trimStart_head in E. simpl in Hr. rewrite E in Hr. discriminate.
  - intros H. apply trimStart_nil in H. rewrite H. reflexivity.
Qed.

Lemma falsy_trim_true (s : jstring) :
  falsy (trim s) = true <-> forallb isWhiteSpace s = true.
Proof.
  rewrite <- trim_nil. destruct (trim s); simpl; split; congruence.
Qed.

Lemma falsy_trim_false (s : jstring) :
  trim s <> [] -> falsy (trim s) = false.
Proof. destruct (trim s); simpl; congruence. Qed.

End Trim.

(** ** The guard of [sendMessage] *)

Section Guard.

Variable snap : Page.
Variable s : Sys.

Lemma guard_rejects :
  forallb isWhiteSpace (inputMessage snap) = true \/ loading snap = true ->
  falsy (trim (inputMessage snap)) || loading snap = true.
Proof.
  intros [H | H].
  - apply falsy_trim_true in H. rewrite H. reflexivity.
  - rewrite H. apply orb_true_r.
Qed.

Lemma sendMessage_call_rejected :
  forallb isWhiteSpace (inputMessage snap) = true \/ loading snap = true ->
  sendMessage_call snap s = (Normal None, s).
Proof.
  intros H. unfold sendMessage_call. rewrite (guard_rejects H). reflexivity.
Qed.

Lemma sendMessage_rejected (o : Outcome Reply) :
  forallb isWhiteSpace (inputMessage snap) = true \/ loading snap = true ->
  sendMessage snap o s = (Normal tt, s).
Proof.
  intros H. unfold sendMessage, bind.
  now rewrite (sendMessage_call_rejected H).
Qed.

(** An accepted submit: a draft with something left after trimming, and
    no send in flight. *)
Hypothesis draft_not_blank : trim (inputMessage snap) <> [].
Hypothesis not_sending : loading snap = false.

Lemma guard_accepts :
  falsy (trim (inputMessage snap)) || loading snap = false.
Proof.
  rewrite (falsy_trim_false _ draft_not_blank), not_sending. reflexivity.
Qed.

Lemma sendMessage_call_accepted :
  sendMessage_call snap s
  = (Normal (Some (request_of snap (world s))), optimistic snap s).
Proof.
  unfold sendMessage_call. rewrite guard_accepts.
  unfold optimistic. run. flat.
Qed.

Lemma sendMessage_accepted (o : Outcome Reply) :
  sendMessage snap o s = sendMessage_resume o (optimistic snap s).
Proof.
  unfold sendMessage, bind. now rewrite sendMessage_call_accepted.
Qed.

End Guard.

(** ** [sendMessage] once the request settles *)

Section Settle.

Lemma ok_2xx (status : Z) : ok status = true <-> is_2xx status.
Proof. unfold ok, is_2xx. rewrite andb_true_iff, !Z.leb_le. tauto. Qed.

Lemma ok_not_2xx (status : Z) : ok status = false <-> ~ is_2xx status.
Proof. rewrite <- ok_2xx. destruct (ok status); split; congruence. Qed.

Lemma ok_401 : ok 401 = false.
Proof. reflexivity. Qed.

Lemma resume_rejected (e : Exn) (s : Sys) :
  sendMessage_resume (Rejected e) s = (Normal tt, failed e s).
Proof.
  unfold sendMessage_resume, failed. run. flat.
Qed.

Lemma resume_2xx (status : Z) (data : Reply) (s : Sys) :
  ok status = true ->
  sendMessage_resume (Responded status (inr data)) s = (Normal tt, resolved data s).
Proof.
  intros H. unfold sendMessage_resume, resolved. run. rewrite H. run. flat.
Qed.

Lemma resume_2xx_bad_json (status : Z) (e : Exn) (s : Sys) :
  ok status = true ->
  sendMessage_resume (Responded status (inl e)) s = (Normal tt, failed e s).
Proof.
  intros H. unfold sendMessage_resume, failed. run. rewrite H. run. flat.
Qed.

Lemma resume_401 (json : Exn + Reply) (s : Sys) :
  sendMessage_resume (Responded 401 json) s = (Normal tt, unauthorized s).
Proof.
  unfold sendMessage_resume, unauthorized. run. rewrite ok_401. cbn [Z.eqb Pos.eqb]. run. flat.
Qed.

Lemma resume_other (status : Z) (json : Exn + Reply) (s : Sys) :
  ok status = false -> status <> 401 ->
  sendMessage_resume (Responded status json) s =
    (Normal tt, failed (Error (lit "Failed to send message")) s).
Proof.
  intros H1 H2. apply Z.eqb_neq in H2.
  unfold sendMessage_resume, failed. run. rewrite H1, H2. run. flat.
Qed.


(** Every settled call takes exactly one of the three branches. *)
Lemma resume_cases (o : Outcome Reply) (s : Sys) :
  (exists data, sendMessage_resume o s = (Normal tt, resolved data s))
  \/ (exists e, sendMessage_resume o s = (Normal tt, failed e s))
  \/ sendMessage_resume o s = (Normal tt, unauthorized s).
Proof.
  destruct o as [e | status json].
  - right; left. exists e. apply resume_rejected.
  - destruct (ok status) eqn:Hok.
    + destruct json as [e | data].
      * right; left. exists e. now apply resume_2xx_bad_json.
      * left. exists data. now apply resume_2xx.
    + destruct (Z.eq_dec status 401) as [-> | Hne].
      * right; right. apply resume_401.
      * right; left. eexists. now apply resume_other.
Qed.

(** A settled call only appends, at most one entry, never a user's. *)
Lemma resume_appends (o : Outcome Reply) (s : Sys) :
  exists s' tail,
    sendMessage_resume o s = (Normal tt, s')
    /\ messages (page s') = messages (page s) ++ tail
    /\ Forall (fun m => isUser m = false) tail
    /\ (length tail <= 1)%nat
    /\ inputMessage (page s') = inputMessage (page s)
    /\ loading (page s') = false
    /\ exists pre, trace (world s') = pre ++ [E_setLoading false].
Proof.
  destruct (resume_cases o s) as [[data H] | [[e H] | H]].
  - exists (resolved data s), [botMessage_of data (world s)].
    repeat split; auto.
    exists (trace (world s)
              ++ [E_setMessages (messages (page s) ++ [botMessage_of data (world s)])]).
    unfold resolved. cbn [world trace]. now rewrite <- app_assoc.
  - exists (failed e s), [errorMessage_of (world s)].
    repeat split; auto.
    exists (trace (world s)
              ++ [E_console_error (lit "Error sending message:") e;
                  E_setMessages (messages (page s) ++ [errorMessage_of (world s)])]).
    unfold failed. cbn [world trace]. now rewrite <- app_assoc.
  - exists (unauthorized s), [].
    repeat split; auto.
    + unfold unauthorized. cbn [page messages]. now rewrite app_nil_r.
    + exists (trace (world s) ++ [E_removeItem "token"; E_push login_path]).
      unfold unauthorized. cbn [world trace]. now rewrite <- app_assoc.
Qed.

(** The [finally] block runs whatever the [try] and [catch] blocks did. *)
Lemma finally_always_runs {A} (body : M A) (handler : Exn -> M A) (s : Sys) :
  try_catch_finally body handler (setLoading false) s
  = (fst (try_catch body handler s),
     snd (setLoading false (snd (try_catch body handler s)))).
Proof.
  unfold try_catch_finally. destruct (try_catch body handler s) as [r s'].
  reflexivity.
Qed.

End Settle.

(** ** Properties of the specification: sending *)

(** C6. When the draft is empty or made of white space only, or a send is
    already in flight, [sendMessage] returns at its guard: the call leaves
    the component state (timeline, draft, sending flag) and the world
    (session storage, clock, effects, hence no request) exactly as they
    were, whatever the network would have answered. *)
Theorem sendMessage_guard_noop (snap : Page) (o : Outcome Reply) (s : Sys) :
  forallb isWhiteSpace (inputMessage snap) = true \/ loading snap = true ->
  sendMessage_call snap s = (Normal None, s)
  /\ sendMessage snap o s = (Normal tt, s).
Proof.
  intros H. split.
  - now apply sendMessage_call_rejected.
  - now apply sendMessage_rejected.
Qed.

Lemma sendMessage_guard_noop_witness :
  (forallb isWhiteSpace (inputMessage (Scenario.page_of (lit "  ") false)) = true
   \/ loading (Scenario.page_of (lit "  ") false) = true)
  /\ sendMessage_call (Scenario.page_of (lit "  ") false)
       (Scenario.sys_of (lit "  ") false)
     = (Normal None, Scenario.sys_of (lit "  ") false)
  /\ sendMessage (Scenario.page_of (lit "  ") false) (Rejected (TypeError []))
       (Scenario.sys_of (lit "  ") false)
     = (Normal tt, Scenario.sys_of (lit "  ") false).
Proof.
  assert (H : forallb isWhiteSpace (inputMessage (Scenario.page_of (lit "  ") false)) = true
              \/ loading (Scenario.page_of (lit "  ") false) = true)
    by (left; reflexivity).
  split; [exact H|].
  exact (sendMessage_guard_noop (Scenario.page_of (lit "  ") false)
           (Rejected (TypeError [])) (Scenario.sys_of (lit "  ") false) H).
Defined.

(** C1. For a draft that is not empty after trimming, and no send in
    flight, the synchronous part of [sendMessage] appends exactly one
    entry to the timeline: a user entry whose content is the draft and
    whose timestamp is a reading of the local clock. The append comes
    before the request in the order of effects. Whatever the outcome of
    the request, the settled call keeps the timeline it finds and adds no
    user entry, so that entry stays where it was put. *)
Theorem sendMessage_optimistic_entry (snap : Page) (s : Sys) :
  trim (inputMessage snap) <> [] -> loading snap = false ->
  let userMessage := userMessage_of snap (world s) in
  content userMessage = inputMessage snap
  /\ isUser userMessage = true
  /\ timestamp userMessage = Date_local (clock (world s) (S (reads (world s))))
  /\ (exists r s1,
        sendMessage_call snap s = (Normal (Some r), s1)
        /\ messages (page s1) = messages (page s) ++ [userMessage]
        /\ trace (world s1) =
             trace (world s)
               ++ [E_setMessages (messages (page s) ++ [userMessage]);
                   E_setInputMessage []; E_setLoading true; E_fetch r])
  /\ (forall (o : Outcome Reply) (s2 : Sys), exists tail,
        messages (page (snd (sendMessage_resume o s2))) = messages (page s2) ++ tail
        /\ Forall (fun m => isUser m = false) tail)
  /\ (forall o : Outcome Reply, exists tail,
        messages (page (snd (sendMessage snap o s)))
          = messages (page s) ++ userMessage :: tail
        /\ Forall (fun m => isUser m = false) tail).
Proof.
  intros H1 H2 userMessage. repeat split.
  - exists (request_of snap (world s)), (optimistic snap s).
    split; [now apply sendMessage_call_accepted|]. split; reflexivity.
  - intros o s2. destruct (resume_appends o s2) as (s3 & tail & E & Hm & Hu & _).
    exists tail. rewrite E. now split.
  - intros o. rewrite (sendMessage_accepted snap s H1 H2).
    destruct (resume_appends o (optimistic snap s)) as (s3 & tail & E & Hm & Hu & _).
    exists tail. rewrite E. cbn [snd]. rewrite Hm. split; [|exact Hu].
    unfold optimistic. cbn [page messages]. now rewrite <- app_assoc.
Qed.

Lemma hello_accepted :
  trim (inputMessage Scenario.hello_page) <> []
  /\ loading Scenario.hello_page = false.
Proof. split; [vm_compute; discriminate | reflexivity]. Defined.

Lemma sendMessage_optimistic_entry_witness :
  let snap := Scenario.hello_page in
  let s := Scenario.hello in
  let userMessage := userMessage_of snap (world s) in
  (trim (inputMessage snap) <> [] /\ loading snap = false)
  /\ content userMessage = inputMessage snap
  /\ isUser userMessage = true
  /\ timestamp userMessage = Date_local (clock (world s) (S (reads (world s))))
  /\ (exists r s1,
        sendMessage_call snap s = (Normal (Some r), s1)
        /\ messages (page s1) = messages (page s) ++ [userMessage]
        /\ trace (world s1) =
             trace (world s)
               ++ [E_setMessages (messages (page s) ++ [userMessage]);
                   E_setInputMessage []; E_setLoading true; E_fetch r])
  /\ (forall (o : Outcome Reply) (s2 : Sys), exists tail,
        messages (page (snd (sendMessage_resume o s2))) = messages (page s2) ++ tail
        /\ Forall (fun m => isUser m = false) tail)
  /\ (forall o : Outcome Reply, exists tail,
        messages (page (snd (sendMessage snap o s)))
          = messages (page s) ++ userMessage :: tail
        /\ Forall (fun m => isUser m = false) tail).
Proof.
  intros snap s userMessage.
  split; [exact hello_accepted|].
  exact (sendMessage_optimistic_entry snap s (proj1 hello_accepted) (proj2 hello_accepted)).
Defined.

(** C7. An accepted call clears the draft and raises the sending flag in
    its synchronous part, while the request is still out. However the
    request settles (a reply, a thrown error, a failure status, 401), and
    in whatever state the component then is, the settled call ends with
    [setLoading(false)] as its last effect and leaves the flag down. *)
Theorem sendMessage_sending_flag (snap : Page) (s : Sys) :
  trim (inputMessage snap) <> [] -> loading snap = false ->
  (exists r s1,
     sendMessage_call snap s = (Normal (Some r), s1)
     /\ inputMessage (page s1) = []
     /\ loading (page s1) = true
     /\ exists pre,
          trace (world s1) = pre ++ [E_setInputMessage []; E_setLoading true; E_fetch r])
  /\ (forall (o : Outcome Reply) (s2 : Sys), exists s3 pre,
        sendMessage_resume o s2 = (Normal tt, s3)
        /\ loading (page s3) = false
        /\ trace (world s3) = pre ++ [E_setLoading false])
  /\ (forall o : Outcome Reply, loading (page (snd (sendMessage snap o s))) = false).
Proof.
  intros H1 H2. repeat split.
  - exists (request_of snap (world s)), (optimistic snap s).
    split; [now apply sendMessage_call_accepted|]. repeat split.
    exists (trace (world s)
              ++ [E_setMessages (messages (page s) ++ [userMessage_of snap (world s)])]).
    unfold optimistic. cbn [world trace]. now rewrite <- app_assoc.
  - intros o s2.
    destruct (resume_appends o s2) as (s3 & tail & E & _ & _ & _ & _ & Hl & pre & Ht).
    exists s3, pre. now repeat split.
  - intros o. rewrite (sendMessage_accepted snap s H1 H2).
    destruct (resume_appends o (optimistic snap s))
      as (s3 & tail & E & _ & _ & _ & _ & Hl & _).
    now rewrite E.
Qed.

Lemma sendMessage_sending_flag_witness :
  let snap := Scenario.hello_page in
  let s := Scenario.hello in
  (trim (inputMessage snap) <> [] /\ loading snap = false)
  /\ (exists r s1,
        sendMessage_call snap s = (Normal (Some r), s1)
        /\ inputMessage (page s1) = []
        /\ loading (page s1) = true
        /\ exists pre,
             trace (world s1) = pre ++ [E_setInputMessage []; E_setLoading true; E_fetch r])
  /\ (forall (o : Outcome Reply) (s2 : Sys), exists s3 pre,
        sendMessage_resume o s2 = (Normal tt, s3)
        /\ loading (page s3) = false
        /\ trace (world s3) = pre ++ [E_setLoading false])
  /\ (forall o : Outcome Reply, loading (page (snd (sendMessage snap o s))) = false).
Proof.
  intros snap s.
  split; [exact hello_accepted|].
  exact (sendMessage_sending_flag snap s (proj1 hello_accepted) (proj2 hello_accepted)).
Defined.

(** C10. In an accepted call, the [message] of the body posted to
    [/chat] is the content of the user entry the same call appended: both
    are the draft of the render the handler was made in, and the request
    leaves after [setInputMessage("")] has cleared the draft of the
    component. *)
Theorem sendMessage_payload_is_entry (snap : Page) (s : Sys) :
  trim (inputMessage snap) <> [] -> loading snap = false ->
  exists r s1 entry,
    sendMessage_call snap s = (Normal (Some r), s1)
    /\ messages (page s1) = messages (page s) ++ [entry]
    /\ isUser entry = true
    /\ url r = chat_url /\ method r = lit "POST"
    /\ body_message r = Some (content entry)
    /\ content entry = inputMessage snap
    /\ inputMessage (page s1) = []
    /\ exists pre,
         trace (world s1) = pre ++ [E_setInputMessage []; E_setLoading true; E_fetch r].
Proof.
  intros H1 H2.
  exists (request_of snap (world s)), (optimistic snap s), (userMessage_of snap (world s)).
  split; [now apply sendMessage_call_accepted|]. repeat split.
  exists (trace (world s)
            ++ [E_setMessages (messages (page s) ++ [userMessage_of snap (world s)])]).
  unfold optimistic. cbn [world trace]. now rewrite <- app_assoc.
Qed.

Lemma sendMessage_payload_is_entry_witness :
  let snap := Scenario.hello_page in
  let s := Scenario.hello in
  (trim (inputMessage snap) <> [] /\ loading snap = false)
  /\ exists r s1 entry,
       sendMessage_call snap s = (Normal (Some r), s1)
       /\ messages (page s1) = messages (page s) ++ [entry]
       /\ isUser entry = true
       /\ url r = chat_url /\ method r = lit "POST"
       /\ body_message r = Some (content entry)
       /\ content entry = inputMessage snap
       /\ inputMessage (page s1) = []
       /\ exists pre,
            trace (world s1) = pre ++ [E_setInputMessage []; E_setLoading true; E_fetch r].
Proof.
  intros snap s.
  split; [exact hello_accepted|].
  exact (sendMessage_payload_is_entry snap s (proj1 hello_accepted) (proj2 hello_accepted)).
Defined.

(** C5. When the request of a send comes back with a 2xx status and a
    reply, the settled call appends exactly one entry, a bot entry whose
    content is the reply's [response] and whose timestamp is made from the
    reply's [timestamp], not read from the clock. In a whole call the
    timeline becomes the old one, the user entry, then that bot entry. *)
Theorem sendMessage_resolved (status : Z) (data : Reply) (snap : Page) (s : Sys) :
  is_2xx status ->
  trim (inputMessage snap) <> [] -> loading snap = false ->
  (forall s2 : Sys,
     let botMessage := botMessage_of data (world s2) in
     content botMessage = reply_response data
     /\ timestamp botMessage = Date_parse (reply_timestamp data)
     /\ isUser botMessage = false
     /\ exists s3,
          sendMessage_resume (Responded status (inr data)) s2 = (Normal tt, s3)
          /\ messages (page s3) = messages (page s2) ++ [botMessage])
  /\ exists botMessage,
       messages (page (snd (sendMessage snap (Responded status (inr data)) s)))
         = messages (page s) ++ [userMessage_of snap (world s); botMessage]
       /\ content botMessage = reply_response data
       /\ timestamp botMessage = Date_parse (reply_timestamp data)
       /\ isUser botMessage = false.
Proof.
  intros Hs H1 H2. apply ok_2xx in Hs. split.
  - intros s2 botMessage. repeat split.
    exists (resolved data s2). split; [now apply resume_2xx | reflexivity].
  - exists (botMessage_of data (world (optimistic snap s))).
    rewrite (sendMessage_accepted snap s H1 H2), (resume_2xx _ _ _ Hs).
    repeat split. unfold resolved, optimistic.
    cbn [snd page world messages]. now rewrite <- app_assoc.
Qed.

Lemma sendMessage_resolved_witness :
  let snap := Scenario.hello_page in
  let s := Scenario.hello in
  let data := Scenario.hi_there in
  (is_2xx 200 /\ trim (inputMessage snap) <> [] /\ loading snap = false)
  /\ (forall s2 : Sys,
        let botMessage := botMessage_of data (world s2) in
        content botMessage = reply_response data
        /\ timestamp botMessage = Date_parse (reply_timestamp data)
        /\ isUser botMessage = false
        /\ exists s3,
             sendMessage_resume (Responded 200 (inr data)) s2 = (Normal tt, s3)
             /\ messages (page s3) = messages (page s2) ++ [botMessage])
  /\ exists botMessage,
       messages (page (snd (sendMessage snap (Responded 200 (inr data)) s)))
         = messages (page s) ++ [userMessage_of snap (world s); botMessage]
       /\ content botMessage = reply_response data
       /\ timestamp botMessage = Date_parse (reply_timestamp data)
       /\ isUser botMessage = false.
Proof.
  intros snap s data.
  assert (H200 : is_2xx 200) by (unfold is_2xx; lia).
  split; [exact (conj H200 hello_accepted)|].
  exact (sendMessage_resolved 200 data snap s H200
           (proj1 hello_accepted) (proj2 hello_accepted)).
Defined.

(** C4. When the request of a send rejects, or comes back with a status
    that is neither 2xx nor 401, the settled call appends exactly one
    entry: a bot-side entry ([isUser] false) whose content is the fixed
    apology and whose timestamp is a reading of the local clock. Session
    storage is left as it was; the only other effects are the line on the
    console and lowering the sending flag. *)
Theorem sendMessage_failed (o : Outcome Reply) (s2 : Sys) :
  (exists e, o = Rejected e)
  \/ (exists status json, o = Responded status json /\ ~ is_2xx status /\ status <> 401) ->
  let errorMessage := errorMessage_of (world s2) in
  content errorMessage = lit "Sorry, I encountered an error. Please try again."
  /\ isUser errorMessage = false
  /\ timestamp errorMessage = Date_local (clock (world s2) (S (reads (world s2))))
  /\ exists s3 e,
       sendMessage_resume o s2 = (Normal tt, s3)
       /\ messages (page s3) = messages (page s2) ++ [errorMessage]
       /\ localStorage (world s3) = localStorage (world s2)
       /\ trace (world s3) =
            trace (world s2)
              ++ [E_console_error (lit "Error sending message:") e;
                  E_setMessages (messages (page s2) ++ [errorMessage]);
                  E_setLoading false].
Proof.
  intros H errorMessage. repeat split.
  destruct H as [[e ->] | (status & json & -> & Hs & Hne)].
  - exists (failed e s2), e. split; [apply resume_rejected|]. repeat split.
  - apply ok_not_2xx in Hs.
    exists (failed (Error (lit "Failed to send message")) s2), (Error (lit "Failed to send message")).
    split; [now apply resume_other|]. repeat split.
Qed.

Lemma sendMessage_failed_witness :
  let o : Outcome Reply := Rejected (TypeError (lit "Failed to fetch")) in
  let s2 := optimistic Scenario.hello_page Scenario.hello in
  let errorMessage := errorMessage_of (world s2) in
  ((exists e, o = Rejected e)
   \/ (exists status json, o = Responded status json /\ ~ is_2xx status /\ status <> 401))
  /\ content errorMessage = lit "Sorry, I encountered an error. Please try again."
  /\ isUser errorMessage = false
  /\ timestamp errorMessage = Date_local (clock (world s2) (S (reads (world s2))))
  /\ exists s3 e,
       sendMessage_resume o s2 = (Normal tt, s3)
       /\ messages (page s3) = messages (page s2) ++ [errorMessage]
       /\ localStorage (world s3) = localStorage (world s2)
       /\ trace (world s3) =
            trace (world s2)
              ++ [E_console_error (lit "Error sending message:") e;
                  E_setMessages (messages (page s2) ++ [errorMessage]);
                  E_setLoading false].
Proof.
  intros o s2 errorMessage.
  assert (H : (exists e, o = Rejected e)
              \/ (exists status json,
                    o = Responded status json /\ ~ is_2xx status /\ status <> 401))
    by (left; eexists; reflexivity).
  split; [exact H|].
  exact (sendMessage_failed o s2 H).
Defined.

(** C3. When the request of a send comes back with status 401, the
    settled call removes [token] from session storage, pushes the login
    route, and appends nothing to the timeline: after a whole call the
    timeline is the old one and the user entry, with no bot or error entry
    behind it. *)
Theorem sendMessage_unauthorized (json : Exn + Reply) (snap : Page) (s : Sys) :
  trim (inputMessage snap) <> [] -> loading snap = false ->
  (forall s2 : Sys, exists s3,
     sendMessage_resume (Responded 401 json) s2 = (Normal tt, s3)
     /\ localStorage (world s3) = delete "token" (localStorage (world s2))
     /\ localStorage (world s3) !! "token" = None
     /\ trace (world s3) =
          trace (world s2)
            ++ [E_removeItem "token"; E_push (lit "/login"); E_setLoading false]
     /\ messages (page s3) = messages (page s2))
  /\ messages (page (snd (sendMessage snap (Responded 401 json) s)))
       = messages (page s) ++ [userMessage_of snap (world s)]
  /\ localStorage (world (snd (sendMessage snap (Responded 401 json) s))) !! "token" = None.
Proof.
  intros H1 H2. split; [|split].
  - intros s2. exists (unauthorized s2). split; [apply resume_401|].
    repeat split. unfold unauthorized. cbn [world localStorage].
    apply lookup_delete_eq.
  - now rewrite (sendMessage_accepted snap s H1 H2), resume_401.
  - rewrite (sendMessage_accepted snap s H1 H2), resume_401.
    unfold unauthorized. cbn [snd world localStorage]. apply lookup_delete_eq.
Qed.

Lemma sendMessage_unauthorized_witness :
  let snap := Scenario.hello_page in
  let s := Scenario.hello in
  let json : Exn + Reply := inl (SyntaxError []) in
  (trim (inputMessage snap) <> [] /\ loading snap = false)
  /\ (forall s2 : Sys, exists s3,
        sendMessage_resume (Responded 401 json) s2 = (Normal tt, s3)
        /\ localStorage (world s3) = delete "token" (localStorage (world s2))
        /\ localStorage (world s3) !! "token" = None
        /\ trace (world s3) =
             trace (world s2)
               ++ [E_removeItem "token"; E_push (lit "/login"); E_setLoading false]
        /\ messages (page s3) = messages (page s2))
  /\ messages (page (snd (sendMessage snap (Responded 401 json) s)))
       = messages (page s) ++ [userMessage_of snap (world s)]
  /\ localStorage (world (snd (sendMessage snap (Responded 401 json) s))) !! "token" = None.
Proof.
  intros snap s json.
  split; [exact hello_accepted|].
  exact (sendMessage_unauthorized json snap s (proj1 hello_accepted) (proj2 hello_accepted)).
Defined.

(** ** Properties of the specification: the history *)

Section History.

Lemma fold_push_turn (history : list Turn) (formattedMessages : list Message) :
  fold_left push_turn history formattedMessages
  = formattedMessages ++ flat_map (fun item => [user_entry item; bot_entry item]) history.
Proof.
  revert formattedMessages.
  induction history as [|item rest IH]; intros acc; cbn [fold_left flat_map].
  - now rewrite app_nil_r.
  - rewrite IH. unfold push_turn. fold (user_entry item) (bot_entry item).
    now rewrite <- !app_assoc.
Qed.

Lemma formatHistory_flat (history : list Turn) :
  formatHistory history
  = flat_map (fun item => [user_entry item; bot_entry item]) history.
Proof. unfold formatHistory. now rewrite fold_push_turn. Qed.

Lemma formatHistory_length (history : list Turn) :
  length (formatHistory history) = (2 * length history)%nat.
Proof.
  rewrite formatHistory_flat.
  induction history as [|item rest IH]; cbn [flat_map length app]; [reflexivity|].
  rewrite IH. lia.
Qed.

Lemma formatHistory_lookup (history : list Turn) (i : nat) (item : Turn) :
  history !! i = Some item ->
  formatHistory history !! (2 * i)%nat = Some (user_entry item)
  /\ formatHistory history !! (2 * i + 1)%nat = Some (bot_entry item).
Proof.
  rewrite formatHistory_flat. revert i.
  induction history as [|t rest IH]; intros i H; [discriminate|].
  destruct i as [|i].
  - injection H as ->. split; reflexivity.
  - cbn [flat_map app].
    replace (2 * S i)%nat with (S (S (2 * i))) by lia.
    cbn [Nat.add]. apply (IH i H).
Qed.

Lemma history_resume_2xx (status : Z) (history : list Turn) (s : Sys) :
  ok status = true ->
  loadChatHistory_resume (Responded status (inr history)) s
  = (Normal tt,
     mkSys
       (mkPage (formatHistory history) (inputMessage (page s)) (loading (page s))
          (isAuthenticated (page s)))
       (mkWorld (localStorage (world s)) (clock (world s)) (reads (world s))
          (trace (world s) ++ [E_setMessages (formatHistory history)]))).
Proof.
  intros H. unfold loadChatHistory_resume. run. rewrite H. run. reflexivity.
Qed.

Lemma history_resume_non_2xx (status : Z) (json : Exn + list Turn) (s : Sys) :
  ok status = false ->
  loadChatHistory_resume (Responded status json) s = (Normal tt, s).
Proof.
  intros H. unfold loadChatHistory_resume. run. rewrite H. reflexivity.
Qed.

Lemma history_resume_rejected (e : Exn) (s : Sys) :
  loadChatHistory_resume (Rejected e) s
  = (Normal tt,
     mkSys (page s)
       (mkWorld (localStorage (world s)) (clock (world s)) (reads (world s))
          (trace (world s)
             ++ [E_console_error (lit "Failed to load chat history:") e]))).
Proof. unfold loadChatHistory_resume. run. reflexivity. Qed.

Lemma history_call (s : Sys) :
  loadChatHistory_call s
  = (Normal (mkRequest history_url (lit "GET")
               (bearer (localStorage (world s) !! "token")) None),
     mkSys (page s)
       (mkWorld (localStorage (world s)) (clock (world s)) (reads (world s))
          (trace (world s)
             ++ [E_fetch (mkRequest history_url (lit "GET")
                            (bearer (localStorage (world s) !! "token")) None)]))).
Proof. unfold loadChatHistory_call. run. reflexivity. Qed.

End History.

(** C2. When the history request comes back with a 2xx status and [N]
    turns, the timeline is set, whatever it held, to exactly [2 * N]
    entries: for each turn, in the order of the reply, the user entry
    (content the turn's [message], id [user-] and the turn id) then the
    bot entry (content the turn's [response], id [bot-] and the turn id),
    both with the timestamp made from the turn's. *)
Theorem loadChatHistory_replaces_timeline
    (status : Z) (history : list Turn) (s : Sys) :
  is_2xx status ->
  exists s',
    loadChatHistory_resume (Responded status (inr history)) s = (Normal tt, s')
    /\ messages (page s')
       = flat_map
           (fun item =>
              [mkMessage (lit "user-" ++ of_number (turn_id item)) (turn_message item)
                 true (Date_parse (turn_timestamp item));
               mkMessage (lit "bot-" ++ of_number (turn_id item)) (turn_response item)
                 false (Date_parse (turn_timestamp item))])
           history
    /\ length (messages (page s')) = (2 * length history)%nat
    /\ (forall (i : nat) (item : Turn),
          history !! i = Some item ->
          messages (page s') !! (2 * i)%nat = Some (user_entry item)
          /\ messages (page s') !! (2 * i + 1)%nat = Some (bot_entry item))
    /\ messages (page (snd (loadChatHistory (Responded status (inr history)) s)))
       = messages (page s').
Proof.
  intros Hs. apply ok_2xx in Hs.
  eexists. split; [now apply history_resume_2xx|]. cbn [page messages].
  split; [apply formatHistory_flat|].
  split; [apply formatHistory_length|].
  split; [apply formatHistory_lookup|].
  unfold loadChatHistory, bind. rewrite history_call, (history_resume_2xx _ _ _ Hs).
  reflexivity.
Qed.

Lemma loadChatHistory_replaces_timeline_witness :
  let history := [Scenario.turn1] in
  let s := Scenario.hello in
  is_2xx 200
  /\ exists s',
      loadChatHistory_resume (Responded 200 (inr history)) s = (Normal tt, s')
      /\ messages (page s')
         = flat_map
             (fun item =>
                [mkMessage (lit "user-" ++ of_number (turn_id item)) (turn_message item)
                   true (Date_parse (turn_timestamp item));
                 mkMessage (lit "bot-" ++ of_number (turn_id item)) (turn_response item)
                   false (Date_parse (turn_timestamp item))])
             history
      /\ length (messages (page s')) = (2 * length history)%nat
      /\ (forall (i : nat) (item : Turn),
            history !! i = Some item ->
            messages (page s') !! (2 * i)%nat = Some (user_entry item)
            /\ messages (page s') !! (2 * i + 1)%nat = Some (bot_entry item))
      /\ messages (page (snd (loadChatHistory (Responded 200 (inr history)) s)))
         = messages (page s').
Proof.
  intros history s.
  assert (H200 : is_2xx 200) by (unfold is_2xx; lia).
  split; [exact H200|].
  exact (loadChatHistory_replaces_timeline 200 history s H200).
Defined.

(** C8, as far as the code goes. A failed load of the history (the request
    rejects, [json()] rejects, or the status is not 2xx) leaves the
    component state and the session storage as they were and pushes no
    route. A rejection is logged on the console. *)
Lemma loadChatHistory_failure_frame (o : Outcome (list Turn)) (s : Sys) :
  (forall status history, o = Responded status (inr history) -> ~ is_2xx status) ->
  exists s',
    loadChatHistory_resume o s = (Normal tt, s')
    /\ page s' = page s
    /\ localStorage (world s') = localStorage (world s)
    /\ (trace (world s') = trace (world s)
        \/ exists e,
            trace (world s')
            = trace (world s) ++ [E_console_error (lit "Failed to load chat history:") e]).
Proof.
  intros H. destruct o as [e | status json].
  - eexists. split; [apply history_resume_rejected|]. repeat split.
    right. now exists e.
  - destruct (ok status) eqn:Hok.
    + destruct json as [e | history].
      * eexists. split.
        { unfold loadChatHistory_resume. run. rewrite Hok. run. reflexivity. }
        repeat split. right. now exists e.
      * exfalso. apply (H status history eq_refl). now apply ok_2xx.
    + exists s. split; [now apply history_resume_non_2xx|]. repeat split. now left.
Qed.

(** C8, where the code departs from it. A history response with a failure
    status, 500 here, goes through the resumed [loadChatHistory] without
    any effect at all: the state is the same afterwards, trace included.
    In a whole load started from a fresh session the only effect is the
    request itself; nothing is written to the console. *)
Theorem loadChatHistory_status_500_not_logged (json : Exn + list Turn) (s : Sys) :
  loadChatHistory_resume (Responded 500 json) s = (Normal tt, s)
  /\ trace (world (snd (loadChatHistory (Responded 500 json) Scenario.hello)))
     = [E_fetch (mkRequest history_url (lit "GET") (lit "Bearer abc") None)]
  /\ forall label e,
       ~ In (E_console_error label e)
           (trace (world (snd (loadChatHistory (Responded 500 json) Scenario.hello)))).
Proof.
  assert (E : forall s0, loadChatHistory_resume (Responded 500 json) s0 = (Normal tt, s0))
    by (intros s0; now apply history_resume_non_2xx).
  split; [apply E|].
  unfold loadChatHistory, bind. rewrite history_call, E. cbn [snd world trace].
  split; [reflexivity|].
  intros label e [H | []]. discriminate H.
Qed.

(** ** Properties of the specification: the input area *)

(** C9 as stated fails: with a send in flight the [Input] is rendered
    with [disabled] set, and an edit by the user does not reach the
    draft. *)
Lemma draft_input_locked_in_flight :
  loading (page Scenario.busy) = true
  /\ option_map input_disabled (render (page Scenario.busy)) = Some true
  /\ user (Edit (lit "x")) Scenario.busy = (Normal tt, Scenario.busy)
  /\ inputMessage (page (snd (user (Edit (lit "x")) Scenario.busy))) <> lit "x".
Proof.
  repeat split. vm_compute. discriminate.
Qed.

(** With no send in flight the draft follows what the user types. *)
Lemma draft_input_editable_when_idle (s : Sys) (value : jstring) :
  loading (page s) = false -> isAuthenticated (page s) = true ->
  inputMessage (page (snd (user (Edit value) s))) = value.
Proof.
  intros Hl Ha. unfold user, render. rewrite Ha, Hl. reflexivity.
Qed.

(** C9, amended. While a send is in flight the input and the send button
    are both rendered disabled, so no edit, key press or click reaches a
    handler and the draft cannot be changed; a further call of
    [sendMessage] made from that render returns at the guard. *)
Theorem input_disabled_while_sending (s : Sys) :
  loading (page s) = true ->
  (forall v, render (page s) = Some v ->
     input_disabled v = true /\ send_disabled v = true)
  /\ (forall a : Action, user a s = (Normal tt, s))
  /\ (forall o : Outcome Reply, sendMessage (page s) o s = (Normal tt, s)).
Proof.
  intros Hl. split; [|split].
  - intros v. unfold render. rewrite Hl.
    destruct (isAuthenticated (page s)); cbn [negb]; [|discriminate].
    intros [= <-]. split; reflexivity.
  - intros a. unfold user, render. rewrite Hl.
    destruct (isAuthenticated (page s)); cbn [negb]; [|reflexivity].
    destruct a; reflexivity.
  - intros o. apply sendMessage_rejected. now right.
Qed.

Lemma input_disabled_while_sending_witness :
  let s := Scenario.busy in
  loading (page s) = true
  /\ (forall v, render (page s) = Some v ->
       input_disabled v = true /\ send_disabled v = true)
  /\ (forall a : Action, user a s = (Normal tt, s))
  /\ (forall o : Outcome Reply, sendMessage (page s) o s = (Normal tt, s)).
Proof.
  intros s. split; [reflexivity|].
  exact (input_disabled_while_sending s eq_refl).
Defined.

(** ** The scenarios of the specification, run *)

(** Scenario A: "hello", then a 2xx reply "hi there". *)
Example scenario_A :
  map (fun m => (isUser m, content m))
    (messages (page (snd (sendMessage Scenario.hello_page
                            (Responded 200 (inr Scenario.hi_there)) Scenario.hello))))
  = [(true, lit "hello"); (false, lit "hi there")].
Proof. vm_compute. reflexivity. Qed.

(** Scenario B: "ping", then the network throws. *)
Example scenario_B :
  map (fun m => (isUser m, content m))
    (messages (page (snd (sendMessage (Scenario.page_of (lit "ping") false)
                            (Rejected (TypeError (lit "Failed to fetch")))
                            (Scenario.sys_of (lit "ping") false)))))
  = [(true, lit "ping");
     (false, lit "Sorry, I encountered an error. Please try again.")].
Proof. vm_compute. reflexivity. Qed.

(** Scenario C: a history of one turn. *)
Example scenario_C :
  messages (page (snd (loadChatHistory (Responded 200 (inr [Scenario.turn1]))
                         Scenario.hello)))
  = [mkMessage (lit "user-1") (lit "a") true (Date_parse (lit "T"));
     mkMessage (lit "bot-1") (lit "b") false (Date_parse (lit "T"))].
Proof. vm_compute. reflexivity. Qed.

(** Scenario D: a submit while a send is in flight. *)
Example scenario_D :
  sendMessage (mkPage [] (lit "again") true true) (Responded 200 (inr Scenario.hi_there))
    (mkSys (mkPage [] (lit "again") true true) Scenario.world0)
  = (Normal tt, mkSys (mkPage [] (lit "again") true true) Scenario.world0).
Proof. reflexivity. Qed.

(** Scenario E: the send comes back 401. *)
Example scenario_E :
  let s' := snd (sendMessage Scenario.hello_page (Responded 401 (inl (SyntaxError [])))
                   Scenario.hello) in
  localStorage (world s') !! "token" = None
  /\ map content (messages (page s')) = [lit "hello"]
  /\ In (E_push (lit "/login")) (trace (world s'))
  /\ loading (page s') = false.
Proof.
  cbn zeta. rewrite (sendMessage_accepted _ _ (proj1 hello_accepted) (proj2 hello_accepted)).
  rewrite resume_401. unfold unauthorized. cbn [snd page world localStorage messages trace loading].
  split; [apply lookup_delete_eq|]. split; [reflexivity|]. split; [|reflexivity].
  apply in_or_app. right. right. left. reflexivity.
Qed.

(** ** A remark on the two requests of the page *)

(** The history load is issued on mount and is not awaited by anything:
    if its reply arrives once a send has started, [setMessages] replaces
    the whole timeline, entries of that send included. The properties
    above that speak of the outcome of a send are about the send's own
    request. *)
Lemma late_history_replaces_timeline (history : list Turn) :
  messages (page (snd (loadChatHistory_resume (Responded 200 (inr history))
                         (optimistic Scenario.hello_page Scenario.hello))))
  = formatHistory history.
Proof. now rewrite history_resume_2xx. Qed.

(** ** Entering and leaving the chat *)

Section Entry.

Lemma pushes_app (a b : list Effect) : pushes (a ++ b) = pushes a ++ pushes b.
Proof. apply flat_map_app. Qed.

Lemma requests_app (a b : list Effect) : requests (a ++ b) = requests a ++ requests b.
Proof. apply flat_map_app. Qed.

Variable s : Sys.

Lemma logged_in_true :
  logged_in (world s) = true ->
  exists c t, localStorage (world s) !! "token" = Some (c :: t).
Proof.
  unfold logged_in. destruct (localStorage (world s) !! "token") as [[|c t]|];
    try discriminate. intros _. now exists c, t.
Qed.

Lemma mount_logged_out :
  logged_in (world s) = false ->
  mount s
  = (Normal tt,
     mkSys (page s)
       (mkWorld (localStorage (world s)) (clock (world s)) (reads (world s))
          (trace (world s) ++ [E_push (lit "/login")]))).
Proof.
  unfold logged_in, mount. run.
  destruct (localStorage (world s) !! "token") as [[|c t]|];
    try discriminate; reflexivity.
Qed.

Lemma mount_logged_in (token : jstring) :
  localStorage (world s) !! "token" = Some token -> token <> [] ->
  mount s
  = (Normal tt,
     mkSys
       (mkPage (messages (page s)) (inputMessage (page s)) (loading (page s)) true)
       (mkWorld (localStorage (world s)) (clock (world s)) (reads (world s))
          (trace (world s)
             ++ [E_setIsAuthenticated true;
                 E_fetch (mkRequest history_url (lit "GET") (lit "Bearer " ++ token) None)]))).
Proof.
  intros H Hne. unfold mount, loadChatHistory_call. run. rewrite H.
  destruct token as [|c t]; [contradiction|]. run. rewrite H.
  unfold bearer. flat.
Qed.

Lemma Home_logged_out :
  logged_in (world s) = false ->
  Home_effect s
  = (Normal tt,
     mkSys (page s)
       (mkWorld (localStorage (world s)) (clock (world s)) (reads (world s))
          (trace (world s) ++ [E_push (lit "/login")]))).
Proof.
  unfold logged_in, Home_effect. run.
  destruct (localStorage (world s) !! "token") as [[|c t]|];
    try discriminate; reflexivity.
Qed.

Lemma Home_logged_in :
  logged_in (world s) = true ->
  Home_effect s
  = (Normal tt,
     mkSys (page s)
       (mkWorld (localStorage (world s)) (clock (world s)) (reads (world s))
          (trace (world s) ++ [E_push (lit "/chat")]))).
Proof.
  unfold logged_in, Home_effect. run.
  destruct (localStorage (world s) !! "token") as [[|c t]|];
    try discriminate; reflexivity.
Qed.

Lemma handleLogout_run :
  handleLogout s
  = (Normal tt,
     mkSys (page s)
       (mkWorld (delete "token" (localStorage (world s))) (clock (world s))
          (reads (world s))
          (trace (world s) ++ [E_removeItem "token"; E_push (lit "/login")]))).
Proof. unfold handleLogout. run. flat. Qed.

End Entry.

Lemma logged_in_delete (w : World) :
  logged_in (mkWorld (delete "token" (localStorage w)) (clock w) (reads w) (trace w))
  = false.
Proof.
  unfold logged_in. cbn [localStorage]. now rewrite lookup_delete_eq.
Qed.

(** X1. The landing page and the chat page test the stored token the same
    way, so they never send the visitor back and forth: either [Home]
    pushes [/chat] and the chat page, once mounted, pushes nothing and
    shows itself, or both push [/login] and the chat page sends no request
    and changes nothing of its state. *)
Theorem Home_and_mount_agree (s : Sys) :
  let h := snd (Home_effect s) in
  let m := snd (mount s) in
  (pushes (trace (world h)) = pushes (trace (world s)) ++ [lit "/chat"]
   /\ pushes (trace (world m)) = pushes (trace (world s))
   /\ isAuthenticated (page m) = true)
  \/ (pushes (trace (world h)) = pushes (trace (world s)) ++ [lit "/login"]
      /\ pushes (trace (world m)) = pushes (trace (world s)) ++ [lit "/login"]
      /\ requests (trace (world m)) = requests (trace (world s))
      /\ page m = page s).
Proof.
  intros h m. subst h m. destruct (logged_in (world s)) eqn:E.
  - left. rewrite (Home_logged_in s E).
    destruct (logged_in_true s E) as (c & t & Ht).
    rewrite (mount_logged_in s (c :: t) Ht) by discriminate.
    cbn [snd world page trace isAuthenticated]. rewrite !pushes_app.
    cbn. rewrite app_nil_r. repeat split.
  - right. rewrite (Home_logged_out s E), (mount_logged_out s E).
    cbn [snd world page trace]. rewrite pushes_app, requests_app.
    cbn. rewrite app_nil_r. repeat split.
Qed.

(** X2. Mounting the chat page with a token in storage (not the empty
    string) marks the page authenticated, so that it renders, and sends
    exactly one request: a GET of the history with the token as bearer.
    Nothing is pushed and the timeline, the draft and the storage are
    untouched. *)
Theorem mount_with_token (s : Sys) (token : jstring) :
  localStorage (world s) !! "token" = Some token -> token <> [] ->
  let m := snd (mount s) in
  fst (mount s) = Normal tt
  /\ isAuthenticated (page m) = true
  /\ render (page m) <> None
  /\ trace (world m)
     = trace (world s)
         ++ [E_setIsAuthenticated true;
             E_fetch (mkRequest (lit "http://localhost:8000/chat/history") (lit "GET")
                        (lit "Bearer " ++ token) None)]
  /\ messages (page m) = messages (page s)
  /\ inputMessage (page m) = inputMessage (page s)
  /\ loading (page m) = loading (page s)
  /\ localStorage (world m) = localStorage (world s).
Proof.
  intros H Hne m. subst m. rewrite (mount_logged_in s token H Hne).
  cbn [fst snd page world isAuthenticated trace messages inputMessage loading localStorage].
  repeat split. unfold render. cbn [isAuthenticated negb]. discriminate.
Qed.

Lemma mount_with_token_witness :
  let s := Visit.returning in
  let token := lit "abc" in
  let m := snd (mount s) in
  (localStorage (world s) !! "token" = Some token /\ token <> [])
  /\ fst (mount s) = Normal tt
  /\ isAuthenticated (page m) = true
  /\ render (page m) <> None
  /\ trace (world m)
     = trace (world s)
         ++ [E_setIsAuthenticated true;
             E_fetch (mkRequest (lit "http://localhost:8000/chat/history") (lit "GET")
                        (lit "Bearer " ++ token) None)]
  /\ messages (page m) = messages (page s)
  /\ inputMessage (page m) = inputMessage (page s)
  /\ loading (page m) = loading (page s)
  /\ localStorage (world m) = localStorage (world s).
Proof.
  intros s token m.
  assert (H1 : localStorage (world s) !! "token" = Some token) by reflexivity.
  assert (H2 : token <> []) by discriminate.
  split; [exact (conj H1 H2)|].
  exact (mount_with_token s token H1 H2).
Defined.

(** X3. Mounting the chat page with no token in storage, or with the empty
    string as token, pushes [/login] and does nothing else: no request is
    sent, the component state is unchanged, and a page that was showing
    the spinner keeps showing it. *)
Theorem mount_without_token (s : Sys) :
  localStorage (world s) !! "token" = None
  \/ localStorage (world s) !! "token" = Some [] ->
  let m := snd (mount s) in
  fst (mount s) = Normal tt
  /\ trace (world m) = trace (world s) ++ [E_push (lit "/login")]
  /\ page m = page s
  /\ localStorage (world m) = localStorage (world s)
  /\ (isAuthenticated (page s) = false -> render (page m) = None).
Proof.
  intros H m. subst m.
  assert (E : logged_in (world s) = false)
    by (unfold logged_in; unfold jstring in *; destruct H as [-> | ->]; reflexivity).
  rewrite (mount_logged_out s E). cbn [fst snd page world trace localStorage].
  repeat split. intros Ha. unfold render. now rewrite Ha.
Qed.

Lemma mount_without_token_witness :
  let s := Visit.anonymous in
  let m := snd (mount s) in
  (localStorage (world s) !! "token" = None
   \/ localStorage (world s) !! "token" = Some [])
  /\ fst (mount s) = Normal tt
  /\ trace (world m) = trace (world s) ++ [E_push (lit "/login")]
  /\ page m = page s
  /\ localStorage (world m) = localStorage (world s)
  /\ (isAuthenticated (page s) = false -> render (page m) = None).
Proof.
  intros s m.
  assert (H : localStorage (world s) !! "token" = None
              \/ localStorage (world s) !! "token" = Some [])
    by (left; reflexivity).
  split; [exact H|].
  exact (mount_without_token s H).
Defined.

(** X4. Logging out removes the token and pushes [/login] without touching
    the component state; a send that comes back 401 removes the token too.
    After either, both pages treat the visitor as logged out: [Home] and
    the mount effect of the chat page push [/login], and the latter sends
    no history request. *)
Theorem logout_and_401_end_the_session (s : Sys) (json : Exn + Reply) :
  let out := snd (handleLogout s) in
  let rej := snd (sendMessage_resume (Responded 401 json) s) in
  trace (world out) = trace (world s) ++ [E_removeItem "token"; E_push (lit "/login")]
  /\ page out = page s
  /\ localStorage (world out) = delete "token" (localStorage (world s))
  /\ localStorage (world rej) = delete "token" (localStorage (world s))
  /\ forall s' : Sys,
       s' = out \/ s' = rej ->
       localStorage (world s') !! "token" = None
       /\ trace (world (snd (Home_effect s'))) = trace (world s') ++ [E_push (lit "/login")]
       /\ trace (world (snd (mount s'))) = trace (world s') ++ [E_push (lit "/login")]
       /\ requests (trace (world (snd (mount s')))) = requests (trace (world s')).
Proof.
  intros out rej. subst out rej. rewrite handleLogout_run, resume_401.
  cbn [snd page world trace localStorage].
  do 4 (split; [reflexivity|]).
  intros s' Hs'.
  assert (Hl : localStorage (world s') = delete "token" (localStorage (world s)))
    by (destruct Hs' as [-> | ->]; reflexivity).
  assert (Hn : localStorage (world s') !! "token" = None)
    by (rewrite Hl; apply lookup_delete_eq).
  assert (E : logged_in (world s') = false)
    by (unfold logged_in; unfold jstring in *; now rewrite Hn).
  rewrite (Home_logged_out s' E), (mount_logged_out s' E).
  cbn [snd world trace]. rewrite requests_app. cbn. rewrite app_nil_r.
  repeat split. exact Hn.
Qed.

(** ** The input area between submit and reply *)

Section InputArea.

Variable s : Sys.

Lemma render_Some (v : View) :
  render (page s) = Some v ->
  isAuthenticated (page s) = true
  /\ input_disabled v = loading (page s)
  /\ send_disabled v = loading (page s) || falsy (trim (inputMessage (page s))).
Proof.
  unfold render. destruct (isAuthenticated (page s)); cbn [negb]; [|discriminate].
  intros [= <-]. repeat split.
Qed.

Lemma user_ignored_while_loading (a : Action) :
  loading (page s) = true -> user a s = (Normal tt, s).
Proof.
  intros Hl. unfold user, render. rewrite Hl.
  destruct (isAuthenticated (page s)); cbn [negb]; [|reflexivity].
  destruct a; reflexivity.
Qed.

Lemma falsy_false (x : jstring) : falsy x = false -> x <> [].
Proof. destruct x; [discriminate|]. intros _. discriminate. Qed.

Lemma click_accepted :
  isAuthenticated (page s) = true -> loading (page s) = false ->
  falsy (trim (inputMessage (page s))) = false ->
  user ClickSend s = (Normal tt, optimistic (page s) s).
Proof.
  intros Ha Hl Hf. unfold user, render. rewrite Ha, Hl, Hf. cbn [negb orb send_disabled].
  unfold bind. rewrite (sendMessage_call_accepted (page s) s (falsy_false _ Hf) Hl).
  reflexivity.
Qed.

End InputArea.

Lemma users_ignored_while_loading (actions : list Action) (s : Sys) :
  loading (page s) = true -> users actions s = s.
Proof.
  intros Hl. induction actions as [|a rest IH]; cbn [users]; [reflexivity|].
  now rewrite (user_ignored_while_loading s a Hl).
Qed.

(** X5. In the input, Enter without Shift does exactly what a click on the
    send button does, in every state of the page; any other key, and Enter
    with Shift, changes nothing. *)
Theorem enter_key_is_send_click (s : Sys) :
  user (KeyPress (lit "Enter") false) s = user ClickSend s
  /\ forall key shiftKey,
       key <> lit "Enter" \/ shiftKey = true ->
       user (KeyPress key shiftKey) s = (Normal tt, s).
Proof.
  split.
  - unfold user, render.
    destruct (isAuthenticated (page s)); cbn [negb]; [|reflexivity].
    cbn [input_disabled send_disabled].
    destruct (loading (page s)) eqn:Hl; [reflexivity|]. cbn [orb].
    unfold handleKeyPress. rewrite bool_decide_eq_true_2 by reflexivity.
    cbn [negb andb].
    destruct (falsy (trim (inputMessage (page s)))) eqn:Hf; [|reflexivity].
    unfold bind, sendMessage_call. rewrite Hf. reflexivity.
  - intros key shiftKey H. unfold user, render.
    destruct (isAuthenticated (page s)); cbn [negb]; [|reflexivity].
    cbn [input_disabled]. destruct (loading (page s)); [reflexivity|].
    unfold handleKeyPress. destruct H as [H | ->].
    + rewrite bool_decide_eq_false_2 by exact H. reflexivity.
    + rewrite andb_false_r. reflexivity.
Qed.

(** X6. The send button is rendered disabled exactly when [sendMessage],
    called from that render, would return at its guard. When it is
    enabled, a click sends exactly one request, whose body carries the
    draft on show. *)
Theorem send_button_matches_guard (s : Sys) (v : View) :
  render (page s) = Some v ->
  (send_disabled v = true <-> sendMessage_call (page s) s = (Normal None, s))
  /\ (send_disabled v = false ->
      exists r s',
        user ClickSend s = (Normal tt, s')
        /\ requests (trace (world s')) = requests (trace (world s)) ++ [r]
        /\ url r = lit "http://localhost:8000/chat"
        /\ body_message r = Some (input_value v)).
Proof.
  intros Hr. destruct (render_Some s v Hr) as (Ha & Hi & Hd).
  assert (Hv : input_value v = inputMessage (page s)).
  { revert Hr. unfold render. rewrite Ha. cbn [negb]. now intros [= <-]. }
  split; [split|].
  - intros H. rewrite Hd in H. unfold sendMessage_call.
    rewrite orb_comm, H. reflexivity.
  - intros H. rewrite Hd.
    destruct (loading (page s)) eqn:Hl; [reflexivity|]. cbn [orb].
    destruct (falsy (trim (inputMessage (page s)))) eqn:Hf; [reflexivity|].
    rewrite (sendMessage_call_accepted (page s) s (falsy_false _ Hf) Hl) in H.
    discriminate H.
  - intros H. rewrite Hd in H. apply orb_false_iff in H as [Hl Hf].
    exists (request_of (page s) (world s)), (optimistic (page s) s).
    split; [now apply click_accepted|].
    unfold optimistic. cbn [world trace]. rewrite requests_app.
    cbn [requests flat_map app]. rewrite Hv. repeat split.
Qed.

Lemma send_button_matches_guard_witness :
  let s := Scenario.hello in
  let v := mkView true false (lit "hello") false false in
  render (page s) = Some v
  /\ (send_disabled v = true <-> sendMessage_call (page s) s = (Normal None, s))
  /\ (send_disabled v = false ->
      exists r s',
        user ClickSend s = (Normal tt, s')
        /\ requests (trace (world s')) = requests (trace (world s)) ++ [r]
        /\ url r = lit "http://localhost:8000/chat"
        /\ body_message r = Some (input_value v)).
Proof.
  intros s v.
  assert (H : render (page s) = Some v) by reflexivity.
  split; [exact H|].
  exact (send_button_matches_guard s v H).
Defined.

(** X7. From an accepted submit until its request settles, nothing the
    user does to the input area has any effect: after any sequence of
    edits, key presses and clicks the state is the one the submit left,
    so no second request goes out, and the exchange ends as it would have
    without them. *)
Theorem nothing_sent_while_sending
    (snap : Page) (s : Sys) (actions : list Action) (o : Outcome Reply) :
  trim (inputMessage snap) <> [] -> loading snap = false ->
  let pending := snd (sendMessage_call snap s) in
  users actions pending = pending
  /\ requests (trace (world (users actions pending)))
     = requests (trace (world s)) ++ [request_of snap (world s)]
  /\ sendMessage_resume o (users actions pending) = sendMessage snap o s.
Proof.
  intros H1 H2 pending. subst pending.
  rewrite (sendMessage_accepted snap s H1 H2 o).
  rewrite (sendMessage_call_accepted snap s H1 H2). cbn [snd].
  rewrite (users_ignored_while_loading actions (optimistic snap s) eq_refl).
  repeat split. unfold optimistic. cbn [world trace].
  rewrite requests_app. reflexivity.
Qed.

Lemma nothing_sent_while_sending_witness :
  let snap := Scenario.hello_page in
  let s := Scenario.hello in
  let actions := [Edit (lit "more"); KeyPress (lit "Enter") false; ClickSend] in
  let o : Outcome Reply := Responded 200 (inr Scenario.hi_there) in
  let pending := snd (sendMessage_call snap s) in
  (trim (inputMessage snap) <> [] /\ loading snap = false)
  /\ users actions pending = pending
  /\ requests (trace (world (users actions pending)))
     = requests (trace (world s)) ++ [request_of snap (world s)]
  /\ sendMessage_resume o (users actions pending) = sendMessage snap o s.
Proof.
  intros snap s actions o pending.
  split; [exact hello_accepted|].
  exact (nothing_sent_while_sending snap s actions o
           (proj1 hello_accepted) (proj2 hello_accepted)).
Defined.

(** X8. Whatever the outcome of an accepted send, the failed ones
    included, the draft is not put back: once the call has settled the
    draft is empty and the sending flag is down, the input is enabled
    again but the send button is not, and calling [sendMessage] again
    from that render does nothing until the user types. *)
Theorem draft_not_restored (snap : Page) (s : Sys) (o : Outcome Reply) :
  trim (inputMessage snap) <> [] -> loading snap = false ->
  let s' := snd (sendMessage snap o s) in
  fst (sendMessage snap o s) = Normal tt
  /\ inputMessage (page s') = []
  /\ loading (page s') = false
  /\ (forall v, render (page s') = Some v ->
        input_disabled v = false /\ send_disabled v = true)
  /\ (forall o' : Outcome Reply, sendMessage (page s') o' s' = (Normal tt, s')).
Proof.
  intros H1 H2 s'. subst s'. rewrite (sendMessage_accepted snap s H1 H2 o).
  destruct (resume_appends o (optimistic snap s))
    as (s3 & tail & E & _ & _ & _ & Hi & Hl & _).
  rewrite E. cbn [fst snd]. cbn [optimistic page inputMessage] in Hi.
  split; [reflexivity|]. split; [exact Hi|]. split; [exact Hl|]. split.
  - intros v Hr. destruct (render_Some s3 v Hr) as (_ & -> & ->).
    rewrite Hl, Hi. split; reflexivity.
  - intros o'. apply sendMessage_rejected. left. now rewrite Hi.
Qed.

Lemma draft_not_restored_witness :
  let snap := Scenario.hello_page in
  let s := Scenario.hello in
  let o : Outcome Reply := Responded 503 (inl (SyntaxError [])) in
  let s' := snd (sendMessage snap o s) in
  (trim (inputMessage snap) <> [] /\ loading snap = false)
  /\ fst (sendMessage snap o s) = Normal tt
  /\ inputMessage (page s') = []
  /\ loading (page s') = false
  /\ (forall v, render (page s') = Some v ->
        input_disabled v = false /\ send_disabled v = true)
  /\ (forall o' : Outcome Reply, sendMessage (page s') o' s' = (Normal tt, s')).
Proof.
  intros snap s o s'.
  split; [exact hello_accepted|].
  exact (draft_not_restored snap s o (proj1 hello_accepted) (proj2 hello_accepted)).
Defined.

(** X9. An accepted send grows the timeline by exactly two entries, the
    user's and one answer (the reply or the apology), unless the status is
    401, in which case it grows by the user's entry alone. *)
Theorem exchange_adds_one_or_two (snap : Page) (s : Sys) (o : Outcome Reply) :
  trim (inputMessage snap) <> [] -> loading snap = false ->
  let before := length (messages (page s)) in
  let after := length (messages (page (snd (sendMessage snap o s)))) in
  ((exists json, o = Responded 401 json) /\ after = S before)
  \/ ((forall json, o <> Responded 401 json) /\ after = S (S before)).
Proof.
  intros H1 H2 before after. subst before after.
  rewrite (sendMessage_accepted snap s H1 H2 o).
  assert (L1 : forall m : Message,
             length ((messages (page s) ++ [userMessage_of snap (world s)]) ++ [m])
             = S (S (length (messages (page s)))))
    by (intros m; rewrite !length_app; cbn [length]; lia).
  destruct o as [e | status json].
  - right. split; [discriminate|]. rewrite resume_rejected. apply L1.
  - destruct (Z.eq_dec status 401) as [-> | Hne].
    + left. split; [now exists json|]. rewrite resume_401.
      cbn [snd unauthorized optimistic page messages].
      rewrite length_app. cbn [length]. lia.
    + right. split; [intros j [= E _]; contradiction|].
      destruct (ok status) eqn:Hok.
      * destruct json as [e | data].
        -- rewrite (resume_2xx_bad_json _ _ _ Hok). apply L1.
        -- rewrite (resume_2xx _ _ _ Hok). apply L1.
      * rewrite (resume_other _ _ _ Hok Hne). apply L1.
Qed.

Lemma exchange_adds_one_or_two_witness :
  let snap := Scenario.hello_page in
  let s := Scenario.hello in
  let o : Outcome Reply := Responded 401 (inl (SyntaxError [])) in
  let before := length (messages (page s)) in
  let after := length (messages (page (snd (sendMessage snap o s)))) in
  (trim (inputMessage snap) <> [] /\ loading snap = false)
  /\ (((exists json, o = Responded 401 json) /\ after = S before)
      \/ ((forall json, o <> Responded 401 json) /\ after = S (S before))).
Proof.
  intros snap s o before after.
  split; [exact hello_accepted|].
  exact (exchange_adds_one_or_two snap s o (proj1 hello_accepted) (proj2 hello_accepted)).
Defined.

(** ** The loaded history: keys, order, provenance *)

Section Keys.







Lemma formatHistory_app (h1 h2 : list Turn) :
  formatHistory (h1 ++ h2) = formatHistory h1 ++ formatHistory h2.
Proof. rewrite !formatHistory_flat. apply flat_map_app. Qed.

Lemma formatHistory_entry (history : list Turn) (i : nat) (m : Message) :
  formatHistory history !! i = Some m ->
  exists item,
    history !! (i / 2)%nat = Some item
    /\ m = if Nat.even i then user_entry item else bot_entry item.
Proof.
  rewrite formatHistory_flat. revert i.
  induction history as [|t rest IH]; intros i; cbn [flat_map app]; [discriminate|].
  destruct i as [|[|i]].
  - intros [= <-]. now exists t.
  - intros [= <-]. now exists t.
  - intros H. cbn [lookup list_lookup] in H. destruct (IH i H) as (item & Hi & Hm).
    exists item. split; [|exact Hm].
    replace (S (S i)) with (i + 1 * 2)%nat by lia.
    rewrite Nat.div_add by lia. replace (i / 2 + 1)%nat with (S (i / 2)) by lia.
    exact Hi.
Qed.

End Keys.



(** X11. Every entry of a loaded timeline comes from the turn at half
    its position: the entry at an even position is that turn's user entry,
    the one at an odd position its bot entry. So the loaded timeline
    alternates user and bot and keeps the order of the reply. *)
Theorem history_entry_provenance
    (status : Z) (history : list Turn) (s : Sys) (i : nat) (m : Message) :
  is_2xx status ->
  messages (page (snd (loadChatHistory_resume (Responded status (inr history)) s))) !! i
    = Some m ->
  isUser m = Nat.even i
  /\ exists item,
       history !! (i / 2)%nat = Some item
       /\ timestamp m = Date_parse (turn_timestamp item)
       /\ content m = (if Nat.even i then turn_message item else turn_response item).
Proof.
  intros Hs. apply ok_2xx in Hs. rewrite (history_resume_2xx _ _ _ Hs).
  cbn [snd page messages]. intros H.
  destruct (formatHistory_entry history i m H) as (item & Hi & ->).
  split; [destruct (Nat.even i); reflexivity|].
  exists item. split; [exact Hi|]. destruct (Nat.even i); split; reflexivity.
Qed.

Lemma history_entry_provenance_witness :
  let history := [Scenario.turn1] in
  let s := Scenario.hello in
  let m := mkMessage (lit "bot-1") (lit "b") false (Date_parse (lit "T")) in
  (is_2xx 200
   /\ messages (page (snd (loadChatHistory_resume (Responded 200 (inr history)) s))) !! 1%nat
      = Some m)
  /\ isUser m = Nat.even 1
  /\ exists item,
       history !! (1 / 2)%nat = Some item
       /\ timestamp m = Date_parse (turn_timestamp item)
       /\ content m = (if Nat.even 1 then turn_message item else turn_response item).
Proof.
  intros history s m.
  assert (H200 : is_2xx 200) by (unfold is_2xx; lia).
  assert (H : messages (page (snd (loadChatHistory_resume (Responded 200 (inr history)) s)))
                !! 1%nat = Some m) by reflexivity.
  split; [exact (conj H200 H)|].
  exact (history_entry_provenance 200 history s 1%nat m H200 H).
Defined.

(** X12. The expansion of a history is compositional: the timeline of two
    replies put end to end is the timeline of the first followed by the
    timeline of the second, whatever the turns. *)
Theorem formatHistory_concatenates (h1 h2 : list Turn) :
  formatHistory (h1 ++ h2) = formatHistory h1 ++ formatHistory h2
  /\ length (formatHistory (h1 ++ h2))
     = (length (formatHistory h1) + length (formatHistory h2))%nat.
Proof.
  rewrite formatHistory_app. split; [reflexivity | apply length_app].
Qed.



(** ** What no turn of the event loop does *)

Section Frame.

Lemma follows_refl (s : Sys) : follows s s.
Proof.
  unfold follows. repeat split; auto. exists []. now rewrite app_nil_r.
Qed.

Lemma follows_trans (s1 s2 s3 : Sys) : follows s1 s2 -> follows s2 s3 -> follows s1 s3.
Proof.
  intros (Hc1 & Hl1 & [x1 Ht1] & Ha1) (Hc2 & Hl2 & [x2 Ht2] & Ha2).
  unfold follows. repeat split.
  - congruence.
  - destruct Hl1 as [E1 | E1], Hl2 as [E2 | E2]; rewrite E2, E1; auto.
    right. apply delete_delete_eq.
  - exists (x1 ++ x2). now rewrite Ht2, Ht1, app_assoc.
  - auto.
Qed.

Ltac frame :=
  unfold follows, optimistic, resolved, failed, unauthorized;
  cbn [page world clock localStorage trace isAuthenticated messages];
  repeat split;
  first [ reflexivity | now auto | now left | now right | now eexists
        | exists []; now rewrite app_nil_r ].

Lemma sendMessage_call_cases (snap : Page) (s : Sys) :
  sendMessage_call snap s = (Normal None, s)
  \/ sendMessage_call snap s
     = (Normal (Some (request_of snap (world s))), optimistic snap s).
Proof.
  destruct (falsy (trim (inputMessage snap)) || loading snap) eqn:G.
  - left. unfold sendMessage_call. now rewrite G.
  - right. apply orb_false_iff in G as [Hf Hl].
    apply sendMessage_call_accepted; [now apply falsy_false | exact Hl].
Qed.

Lemma user_cases (a : Action) (s : Sys) :
  user a s = (Normal tt, s)
  \/ (exists value, user a s = setInputMessage value s)
  \/ user a s = (Normal tt, optimistic (page s) s).
Proof.
  unfold user. destruct (render (page s)) as [v|]; [|now left].
  destruct a as [value | key shiftKey |].
  - destruct (input_disabled v); [now left|]. right; left. now exists value.
  - destruct (input_disabled v); [now left|]. unfold handleKeyPress.
    destruct (bool_decide (key = lit "Enter") && negb shiftKey); [|now left].
    unfold bind. destruct (sendMessage_call_cases (page s) s) as [-> | ->];
      [now left | now right; right].
  - destruct (send_disabled v); [now left|].
    unfold bind. destruct (sendMessage_call_cases (page s) s) as [-> | ->];
      [now left | now right; right].
Qed.

Lemma history_resume_bad_json (status : Z) (e : Exn) (s : Sys) :
  ok status = true ->
  loadChatHistory_resume (Responded status (inl e)) s
  = (Normal tt,
     mkSys (page s)
       (mkWorld (localStorage (world s)) (clock (world s)) (reads (world s))
          (trace (world s)
             ++ [E_console_error (lit "Failed to load chat history:") e]))).
Proof.
  intros H. unfold loadChatHistory_resume. run. rewrite H. run. reflexivity.
Qed.

(** One turn: it completes normally, the later state follows the earlier
    one, and unless it is the history's the timeline is only appended
    to. *)
Lemma perform_frame (t : Task) (s : Sys) :
  exists s',
    perform t s = (Normal tt, s')
    /\ follows s s'
    /\ (is_history t = false ->
        exists tail, messages (page s') = messages (page s) ++ tail).
Proof.
  destruct t as [| o | a | o |]; cbn [perform is_history].
  - destruct (logged_in (world s)) eqn:E.
    + destruct (logged_in_true s E) as (c & t & Ht).
      eexists. split; [apply (mount_logged_in s (c :: t) Ht); discriminate|].
      split; [frame|]. intros _. exists []. cbn [page messages]. now rewrite app_nil_r.
    + eexists. split; [now apply mount_logged_out|].
      split; [frame|]. intros _. exists []. cbn [page]. now rewrite app_nil_r.
  - destruct o as [e | status [e | history]].
    + eexists. split; [apply history_resume_rejected|]. split; [frame | discriminate].
    + destruct (ok status) eqn:Hok.
      * eexists. split; [now apply history_resume_bad_json|].
        split; [frame | discriminate].
      * exists s. split; [now apply history_resume_non_2xx|].
        split; [apply follows_refl | discriminate].
    + destruct (ok status) eqn:Hok.
      * eexists. split; [now apply history_resume_2xx|]. split; [frame | discriminate].
      * exists s. split; [now apply history_resume_non_2xx|].
        split; [apply follows_refl | discriminate].
  - destruct (user_cases a s) as [-> | [[value ->] | ->]].
    + exists s. split; [reflexivity|]. split; [apply follows_refl|].
      intros _. exists []. now rewrite app_nil_r.
    + eexists. split; [reflexivity|]. split; [frame|].
      intros _. exists []. cbn [page messages set_page]. now rewrite app_nil_r.
    + eexists. split; [reflexivity|]. split; [frame|].
      intros _. now eexists.
  - destruct (resume_cases o s) as [[data ->] | [[e ->] | ->]].
    + eexists. split; [reflexivity|]. split; [frame|]. intros _. now eexists.
    + eexists. split; [reflexivity|]. split; [frame|]. intros _. now eexists.
    + eexists. split; [reflexivity|]. split; [frame|].
      intros _. exists []. cbn [unauthorized page messages]. now rewrite app_nil_r.
  - eexists. split; [apply handleLogout_run|]. split; [frame|].
    intros _. exists []. cbn [page]. now rewrite app_nil_r.
Qed.

Lemma perform_all_follows (tasks : list Task) (s : Sys) :
  follows s (perform_all tasks s).
Proof.
  revert s. induction tasks as [|t rest IH]; intros s; cbn [perform_all].
  - apply follows_refl.
  - destruct (perform_frame t s) as (s' & E & F & _). rewrite E. cbn [snd].
    exact (follows_trans _ _ _ F (IH s')).
Qed.

End Frame.

(** X14. No turn of the chat page lets an error out: the mount effect,
    either request's resumption on any outcome, any action of the user and
    the logout all complete normally, so [loadChatHistory] and
    [sendMessage] never reject and every thrown error ends in a [catch]. *)
Theorem no_task_throws (t : Task) (s : Sys) :
  fst (perform t s) = Normal tt.
Proof.
  destruct (perform_frame t s) as (s' & E & _). now rewrite E.
Qed.

(** X15. Nothing the chat page runs ever writes to the storage: after any
    sequence of turns every key other than [token] holds what it held, and
    [token] holds what it held or has been removed. A session that has no
    token therefore never gets one from this page. *)
Theorem storage_only_loses_the_token (tasks : list Task) (s : Sys) :
  let s' := perform_all tasks s in
  (forall key : string,
     key <> "token" -> localStorage (world s') !! key = localStorage (world s) !! key)
  /\ (localStorage (world s') !! "token" = localStorage (world s) !! "token"
      \/ localStorage (world s') !! "token" = None)
  /\ (logged_in (world s) = false -> logged_in (world s') = false).
Proof.
  intros s'. subst s'. unfold logged_in.
  destruct (perform_all_follows tasks s) as (_ & Hl & _).
  destruct Hl as [-> | ->].
  - repeat split; auto.
  - split; [|split].
    + intros key Hk. now apply lookup_delete_ne.
    + right. apply lookup_delete_eq.
    + intros _. now rewrite lookup_delete_eq.
Qed.

(** X16. The timeline is append-only outside the history load: after any
    sequence of turns none of which is the resumption of the history
    request, the timeline is the earlier one with entries added at its
    end; nothing is removed, reordered or edited. *)
Theorem timeline_append_only (tasks : list Task) (s : Sys) :
  forallb (fun t => negb (is_history t)) tasks = true ->
  exists tail,
    messages (page (perform_all tasks s)) = messages (page s) ++ tail.
Proof.
  revert s. induction tasks as [|t rest IH]; intros s H; cbn [perform_all].
  - exists []. now rewrite app_nil_r.
  - cbn [forallb] in H. apply andb_true_iff in H as [Ht Hrest].
    apply negb_true_iff in Ht.
    destruct (perform_frame t s) as (s' & E & _ & Ha). rewrite E. cbn [snd].
    destruct (Ha Ht) as [tail1 E1], (IH s' Hrest) as [tail2 E2].
    exists (tail1 ++ tail2). now rewrite E2, E1, app_assoc.
Qed.

Lemma timeline_append_only_witness :
  let tasks :=
    [T_user ClickSend; T_user (Edit (lit "x"));
     T_settle (Rejected (TypeError (lit "Failed to fetch"))); T_logout] in
  forallb (fun t => negb (is_history t)) tasks = true
  /\ exists tail,
       messages (page (perform_all tasks Scenario.hello))
       = messages (page Scenario.hello) ++ tail.
Proof.
  intros tasks.
  assert (H : forallb (fun t => negb (is_history t)) tasks = true) by reflexivity.
  split; [exact H|].
  exact (timeline_append_only tasks Scenario.hello H).
Defined.

(** X17. Once the mount effect has marked the page authenticated, nothing
    unmarks it: after any sequence of turns, a logout or a 401 included,
    the page still renders the chat (leaving it is the router's doing),
    and the effects performed so far are still there, in order, at the
    head of the trace. *)
Theorem authenticated_is_never_reset (tasks : list Task) (s : Sys) :
  isAuthenticated (page s) = true ->
  isAuthenticated (page (perform_all tasks s)) = true
  /\ render (page (perform_all tasks s)) <> None
  /\ exists suffix,
       trace (world (perform_all tasks s)) = trace (world s) ++ suffix.
Proof.
  intros Ha. destruct (perform_all_follows tasks s) as (_ & _ & Ht & Hk).
  specialize (Hk Ha). split; [exact Hk|]. split; [|exact Ht].
  unfold render. rewrite Hk. discriminate.
Qed.

Lemma authenticated_is_never_reset_witness :
  let tasks := [T_logout; T_settle (Responded 401 (inl (SyntaxError [])))] in
  let s := Scenario.hello in
  isAuthenticated (page s) = true
  /\ isAuthenticated (page (perform_all tasks s)) = true
  /\ render (page (perform_all tasks s)) <> None
  /\ exists suffix,
       trace (world (perform_all tasks s)) = trace (world s) ++ suffix.
Proof.
  intros tasks s. split; [reflexivity|].
  exact (authenticated_is_never_reset tasks s eq_refl).
Defined.

(** ** The two requests together *)

(** X18. The history request is not awaited by anything, and the input is
    usable as soon as the page is mounted. If the history reply arrives
    between an accepted submit and the reply to it, the timeline is
    replaced by the loaded history and the user's entry of that send is
    dropped, while the page stays in the sending state; the reply to the
    send is then appended behind the history. With an empty history the
    timeline ends up holding the bot's reply alone. *)
Theorem history_reply_during_send
    (snap : Page) (s : Sys) (status status' : Z)
    (history : list Turn) (data : Reply) :
  trim (inputMessage snap) <> [] -> loading snap = false ->
  is_2xx status -> is_2xx status' ->
  let pending := snd (sendMessage_call snap s) in
  let loaded := snd (loadChatHistory_resume (Responded status (inr history)) pending) in
  let settled := snd (sendMessage_resume (Responded status' (inr data)) loaded) in
  messages (page pending) = messages (page s) ++ [userMessage_of snap (world s)]
  /\ messages (page loaded) = formatHistory history
  /\ loading (page loaded) = true
  /\ messages (page settled) = formatHistory history ++ [botMessage_of data (world loaded)]
  /\ loading (page settled) = false
  /\ (history = [] -> map isUser (messages (page settled)) = [false]).
Proof.
  intros H1 H2 Hs Hs' pending loaded settled. subst pending loaded settled.
  apply ok_2xx in Hs, Hs'.
  rewrite (sendMessage_call_accepted snap s H1 H2). cbn [snd].
  rewrite (history_resume_2xx _ _ _ Hs). cbn [snd].
  rewrite (resume_2xx _ _ _ Hs'). cbn [snd].
  unfold resolved, optimistic. cbn [page world messages loading].
  repeat split. intros ->. reflexivity.
Qed.

Lemma history_reply_during_send_witness :
  let snap := Scenario.hello_page in
  let s := Scenario.hello in
  let history : list Turn := [] in
  let data := Scenario.hi_there in
  let pending := snd (sendMessage_call snap s) in
  let loaded := snd (loadChatHistory_resume (Responded 200 (inr history)) pending) in
  let settled := snd (sendMessage_resume (Responded 200 (inr data)) loaded) in
  (trim (inputMessage snap) <> [] /\ loading snap = false /\ is_2xx 200)
  /\ messages (page pending) = messages (page s) ++ [userMessage_of snap (world s)]
  /\ messages (page loaded) = formatHistory history
  /\ loading (page loaded) = true
  /\ messages (page settled) = formatHistory history ++ [botMessage_of data (world loaded)]
  /\ loading (page settled) = false
  /\ (history = [] -> map isUser (messages (page settled)) = [false]).
Proof.
  intros snap s history data pending loaded settled.
  assert (H200 : is_2xx 200) by (unfold is_2xx; lia).
  split; [exact (conj (proj1 hello_accepted) (conj (proj2 hello_accepted) H200))|].
  exact (history_reply_during_send snap s 200 200 history data
           (proj1 hello_accepted) (proj2 hello_accepted) H200 H200).
Defined.

(** X19. [sendMessage] does not look at the token it reads: with no token
    in storage an accepted submit still appends the user's entry and still
    sends its request, with the header [Bearer null]; with a token [t] the
    header is [Bearer t]. Only the answer of the server can end the
    session. *)
Theorem send_without_token_still_posts (snap : Page) (s : Sys) :
  trim (inputMessage snap) <> [] -> loading snap = false ->
  exists r s',
    sendMessage_call snap s = (Normal (Some r), s')
    /\ requests (trace (world s')) = requests (trace (world s)) ++ [r]
    /\ pushes (trace (world s')) = pushes (trace (world s))
    /\ (localStorage (world s) !! "token" = None -> authorization r = lit "Bearer null")
    /\ (forall t, localStorage (world s) !! "token" = Some t ->
          authorization r = lit "Bearer " ++ t).
Proof.
  intros H1 H2.
  exists (request_of snap (world s)), (optimistic snap s).
  split; [now apply sendMessage_call_accepted|].
  unfold optimistic, request_of, bearer.
  cbn [world trace authorization]. rewrite requests_app, pushes_app.
  split; [reflexivity|]. split; [cbn; now rewrite app_nil_r|].
  unfold jstring in *. split.
  - intros ->. reflexivity.
  - intros t ->. reflexivity.
Qed.

Lemma send_without_token_still_posts_witness :
  let snap := Scenario.hello_page in
  let s := mkSys Scenario.hello_page (world Visit.anonymous) in
  (trim (inputMessage snap) <> [] /\ loading snap = false)
  /\ exists r s',
       sendMessage_call snap s = (Normal (Some r), s')
       /\ requests (trace (world s')) = requests (trace (world s)) ++ [r]
       /\ pushes (trace (world s')) = pushes (trace (world s))
       /\ (localStorage (world s) !! "token" = None -> authorization r = lit "Bearer null")
       /\ (forall t, localStorage (world s) !! "token" = Some t ->
             authorization r = lit "Bearer " ++ t).
Proof.
  intros snap s.
  split; [exact hello_accepted|].
  exact (send_without_token_still_posts snap s
           (proj1 hello_accepted) (proj2 hello_accepted)).
Defined.

(** X20. A history load that fails in any way (the request rejects, the
    body of a 2xx reply cannot be read, or the status is not 2xx, 401
    included) completes normally and leaves the whole component state and
    the storage as they were: the visitor stays logged in, no route is
    pushed and no request is sent. *)
Theorem history_failure_keeps_session (o : Outcome (list Turn)) (s : Sys) :
  (forall status history, o = Responded status (inr history) -> ~ is_2xx status) ->
  let s' := snd (loadChatHistory_resume o s) in
  fst (loadChatHistory_resume o s) = Normal tt
  /\ page s' = page s
  /\ localStorage (world s') = localStorage (world s)
  /\ logged_in (world s') = logged_in (world s)
  /\ pushes (trace (world s')) = pushes (trace (world s))
  /\ requests (trace (world s')) = requests (trace (world s)).
Proof.
  intros H s'. subst s'.
  destruct (loadChatHistory_failure_frame o s H) as (s1 & E & Hp & Hl & Ht).
  rewrite E. cbn [fst snd]. unfold logged_in. rewrite Hl.
  do 4 (split; [reflexivity || assumption|]).
  destruct Ht as [-> | [e ->]]; [split; reflexivity|].
  rewrite pushes_app, requests_app. cbn. now rewrite !app_nil_r.
Qed.

Lemma history_failure_keeps_session_witness :
  let o : Outcome (list Turn) := Responded 401 (inl (SyntaxError [])) in
  let s := Scenario.hello in
  let s' := snd (loadChatHistory_resume o s) in
  (forall status history, o = Responded status (inr history) -> ~ is_2xx status)
  /\ fst (loadChatHistory_resume o s) = Normal tt
  /\ page s' = page s
  /\ localStorage (world s') = localStorage (world s)
  /\ logged_in (world s') = logged_in (world s)
  /\ pushes (trace (world s')) = pushes (trace (world s))
  /\ requests (trace (world s')) = requests (trace (world s)).
Proof.
  intros o s s'.
  assert (H : forall status history,
             o = Responded status (inr history) -> ~ is_2xx status)
    by (intros status history E; discriminate E).
  split; [exact H|].
  exact (history_failure_keeps_session o s H).
Defined.
